(** * dtlpy settings entities: JSON (de)serialisation

    A shallow embedding of [dtlpy/entities/setting.py]: the enumerations,
    [SettingScope], [BaseSetting], [Setting] and [UserSetting], with their
    [from_json] / [to_json] methods, followed by the properties of the
    serialisation contract.

    Python values are dynamically typed, so the embedding works over one
    universe of values ([pyval]) and every operation that Python can refuse
    ([x in y], [y[k]], [for x in y], [y.get]) returns a [result].  A method
    that mutates [self] returns the updated object next to its result. *)

From Stdlib Require Import ZArith List String Ascii Bool Lia DecimalString.
Import ListNotations.
Open Scope list_scope.
Open Scope string_scope.

Set Warnings "-register-all".

(** ** Python values *)

(** The values that travel through the entities: what [json.loads] produces
    and [json.dumps] accepts.  A dict keeps its insertion order (the order is
    visible in [json.dumps]); its keys are strings.  A float is carried as its
    [repr], the shortest decimal text that reads back as the same float
    ([0.0], [-0.0], [1.5], [1e+22], [inf], [-inf], [nan]).  A character of a
    [string] stands for the code point of the same number. *)
Inductive pyval : Type :=
| PNone
| PBool (b : bool)
| PInt (z : Z)
| PFloat (repr : string)
| PStr (s : string)
| PList (l : list pyval)
| PDict (d : list (string * pyval)).

Definition pydict : Type := list (string * pyval).

(** Exceptions raised by the modelled code.  [RaisedWarning] is a warning
    that the warning filters turned into an exception. *)
Inductive exn : Type :=
| TypeError
| KeyError
| AttributeError
| ValueError
| RecursionError
| RaisedWarning (msg : string)
| Exception (msg : string).

Inductive result (A : Type) : Type :=
| Ok (a : A)
| Raise (e : exn).
Arguments Ok {A} a.
Arguments Raise {A} e.

(** [d.get(k, None)] on a dict, as an option. *)
Fixpoint dict_get (d : pydict) (k : string) : option pyval :=
  match d with
  | [] => None
  | (k', v) :: r => if String.eqb k k' then Some v else dict_get r k
  end.

(** [d[k] = v]: an existing key keeps its place, a new key goes last. *)
Fixpoint dict_set (d : pydict) (k : string) (v : pyval) : pydict :=
  match d with
  | [] => [(k, v)]
  | (k', v') :: r =>
      if String.eqb k k' then (k', v) :: r else (k', v') :: dict_set r k v
  end.

(** [k in d] for a dict. *)
Definition dict_mem (d : pydict) (k : string) : bool :=
  match dict_get d k with Some _ => true | None => false end.

(** [_json.get(k, None)]. *)
Definition get_or_none (d : pydict) (k : string) : pyval :=
  match dict_get d k with Some v => v | None => PNone end.

(** [v is None] and [isinstance(v, dict)]. *)
Definition is_none (v : pyval) : bool :=
  match v with PNone => true | _ => false end.

Definition isinstance_dict (v : pyval) : bool :=
  match v with PDict _ => true | _ => false end.

(** Python truth value, as tested by [if v:].  Both float zeros are false. *)
Definition truthy (v : pyval) : bool :=
  match v with
  | PNone => false
  | PBool b => b
  | PInt z => negb (z =? 0)%Z
  | PFloat r => negb (String.eqb r "0.0" || String.eqb r "-0.0")
  | PStr s => negb (String.eqb s "")
  | PList l => match l with [] => false | _ => true end
  | PDict d => match d with [] => false | _ => true end
  end.

(** [needle in hay] for two strings: substring search. *)
Fixpoint str_contains (needle hay : string) : bool :=
  if String.prefix needle hay then true
  else match hay with
       | EmptyString => false
       | String _ rest => str_contains needle rest
       end.

(** [k in v] for a string [k]: key membership on a dict, substring search on
    a string, search by equality on a list; the other values are not
    containers. *)
Definition py_contains (k : string) (v : pyval) : result bool :=
  match v with
  | PDict d => Ok (dict_mem d k)
  | PStr s => Ok (str_contains k s)
  | PList l =>
      Ok (existsb (fun x => match x with PStr s => String.eqb k s | _ => false end) l)
  | _ => Raise TypeError
  end.

(** [v[k]] for a string [k]: only a dict can be indexed by a string. *)
Definition py_getitem (v : pyval) (k : string) : result pyval :=
  match v with
  | PDict d => match dict_get d k with Some x => Ok x | None => Raise KeyError end
  | _ => Raise TypeError
  end.

(** [v[k] = x] for a string [k]. *)
Definition py_setitem (v : pyval) (k : string) (x : pyval) : result pyval :=
  match v with
  | PDict d => Ok (PDict (dict_set d k x))
  | _ => Raise TypeError
  end.

(** The objects a [for] loop over [v] visits: the elements of a list, the
    one-character strings of a string, the keys of a dict. *)
Definition py_iter (v : pyval) : result (list pyval) :=
  match v with
  | PList l => Ok l
  | PStr s => Ok (map (fun c => PStr (String c "")) (list_ascii_of_string s))
  | PDict d => Ok (map (fun kv => PStr (fst kv)) d)
  | _ => Raise TypeError
  end.

(** ** [json.dumps] with its default arguments *)

Definition hex_digit (n : nat) : ascii :=
  ascii_of_nat (if Nat.ltb n 10 then 48 + n else 87 + n).

(** One character of [py_encode_basestring_ascii]: the short escapes, the
    printable ASCII range as it is, everything else as a [\u00xx] escape. *)
Definition escape_char (c : ascii) : string :=
  let n := nat_of_ascii c in
  if Nat.eqb n 34 then String "\" (String c "")
  else if Nat.eqb n 92 then "\\"
  else if Nat.eqb n 10 then "\n"
  else if Nat.eqb n 13 then "\r"
  else if Nat.eqb n 9 then "\t"
  else if Nat.eqb n 8 then "\b"
  else if Nat.eqb n 12 then "\f"
  else if andb (Nat.leb 32 n) (Nat.leb n 126) then String c ""
  else "\u00" ++ String (hex_digit (n / 16)) (String (hex_digit (n mod 16)) "").

Definition quote : string := String (ascii_of_nat 34) "".

Definition encode_str (s : string) : string :=
  quote ++ String.concat "" (map escape_char (list_ascii_of_string s)) ++ quote.

Definition int_repr (z : Z) : string := NilZero.string_of_int (Z.to_int z).

(** [float.__repr__], with the JavaScript names for the values that are not
    finite ([allow_nan] is on by default). *)
Definition float_repr (r : string) : string :=
  if String.eqb r "nan" then "NaN"
  else if String.eqb r "inf" then "Infinity"
  else if String.eqb r "-inf" then "-Infinity"
  else r.

Fixpoint json_dumps (v : pyval) : string :=
  match v with
  | PNone => "null"
  | PBool true => "true"
  | PBool false => "false"
  | PInt z => int_repr z
  | PFloat r => float_repr r
  | PStr s => encode_str s
  | PList l =>
      "[" ++
      (fix items (l : list pyval) : string :=
         match l with
         | [] => ""
         | x :: r =>
             match r with
             | [] => json_dumps x
             | _ => json_dumps x ++ ", " ++ items r
             end
         end) l ++ "]"
  | PDict d =>
      "{" ++
      (fix members (d : list (string * pyval)) : string :=
         match d with
         | [] => ""
         | (k, x) :: r =>
             match r with
             | [] => encode_str k ++ ": " ++ json_dumps x
             | _ => encode_str k ++ ": " ++ json_dumps x ++ ", " ++ members r
             end
         end) d ++ "}"
  end.

(** ** Enumerations

    Each class mixes [str] into [Enum]: a member is a string and compares and
    serialises as its value.  (The trailing commas of the source turn some
    right-hand sides into one-element tuples, which [str.__new__] unpacks
    again, so every member's value is the plain string.) *)

Inductive Role : Type :=
| OWNER | ADMIN | MEMBER | ANNOTATOR | DEVELOPER | ANNOTATION_MANAGER | ALL.

Definition Role_value (r : Role) : string :=
  match r with
  | OWNER => "owner"
  | ADMIN => "admin"
  | MEMBER => "member"
  | ANNOTATOR => "annotator"
  | DEVELOPER => "engineer"
  | ANNOTATION_MANAGER => "annotationManager"
  | ALL => "*"
  end.

Inductive PlatformEntityType : Type :=
| USER | TASK | PROJECT | ORG | DATASET | DATALOOP.

Definition PlatformEntityType_value (t : PlatformEntityType) : string :=
  match t with
  | USER => "user"
  | TASK => "task"
  | PROJECT => "project"
  | ORG => "org"
  | DATASET => "dataset"
  | DATALOOP => "DATALOOP"
  end.

Inductive SettingsValueTypes : Type :=
| BOOLEAN | NUMBER | SELECT | MULTI_SELECT.

Definition SettingsValueTypes_value (t : SettingsValueTypes) : string :=
  match t with
  | BOOLEAN => "boolean"
  | NUMBER => "number"
  | SELECT => "select"
  | MULTI_SELECT => "multi-select"
  end.

Inductive SettingsTypes : Type :=
| FEATURE_FLAG | USER_SETTINGS.

Definition SettingsTypes_value (t : SettingsTypes) : string :=
  match t with
  | FEATURE_FLAG => "feature_flag"
  | USER_SETTINGS => "user_settings"
  end.

Inductive SettingsSectionNames : Type :=
| ACCOUNT | CONTACT | APPLICATIONS | STUDIO | PLATFORM | SDK.

Definition SettingsSectionNames_value (n : SettingsSectionNames) : string :=
  match n with
  | ACCOUNT => "Account"
  | CONTACT => "Contact"
  | APPLICATIONS => "Applications"
  | STUDIO => "Studio"
  | PLATFORM => "Platform"
  | SDK => "SDK"
  end.

(** ** External collaborators *)

(** A reference to an object the entity only passes along (the API client, a
    project, an organisation); [NoRef] is [None]. *)
Inductive extref : Type :=
| NoRef
| Ref (n : nat).

(** Modelled from the spec: [repositories.Settings], the settings repository
    built by the constructor of [BaseSetting], is not part of the sources at
    hand.  It is "constructed from (client context, optional project,
    optional org)" and holds them for the later [update] / [delete] calls. *)
Record Settings : Type := mkSettings {
  repo_client_api : extref;
  repo_project : extref;
  repo_org : extref
}.

(** ** SettingScope *)

Module SettingScope.

Record t : Type := mk {
  type : pyval;
  id : pyval;
  role : pyval;
  prevent_override : pyval;
  visible : pyval
}.

(** [_json.get] exists on a dict only: any other argument ([None] when
    the caller found no scope) raises [AttributeError]. *)
Definition from_json (_json : pyval) : result t :=
  match _json with
  | PDict d =>
      Ok (mk (get_or_none d "type")
             (get_or_none d "id")
             (get_or_none d "role")
             (get_or_none d "preventOverride")
             (get_or_none d "visible"))
  | _ => Raise AttributeError
  end.

Definition to_json (self : t) : pydict :=
  let _json := [] in
  let _json := if truthy (type self) then dict_set _json "type" (type self) else _json in
  let _json := if truthy (id self) then dict_set _json "id" (id self) else _json in
  let _json := if truthy (role self) then dict_set _json "role" (role self) else _json in
  let _json := if truthy (prevent_override self)
               then dict_set _json "preventOverride" (prevent_override self) else _json in
  let _json := if truthy (visible self) then dict_set _json "visible" (visible self) else _json in
  _json.

End SettingScope.

(** ** Loops that mutate the objects they visit *)

(** The body of a loop receives one object and returns it as the body left
    it, with the exception that ended the body, if any. *)
Definition mutation : Type := pyval -> pyval * option exn.

(** [for x in l: body(x)] over the elements of a list: the elements are
    updated in place, in order; an exception leaves the loop, with the
    elements after it untouched. *)
Fixpoint for_each (body : mutation) (l : list pyval) : list pyval * option exn :=
  match l with
  | [] => ([], None)
  | x :: r =>
      match body x with
      | (x', Some e) => (x' :: r, Some e)
      | (x', None) =>
          let (r', e) := for_each body r in (x' :: r', e)
      end
  end.

(** ** BaseSetting *)

Module BaseSetting.

Record t : Type := mk {
  default_value : pyval;
  name : pyval;
  value : pyval;
  value_type : pyval;
  scope : SettingScope.t;
  metadata : pyval;
  setting_type : pyval;
  client_api : extref;
  project : extref;
  org : extref;
  id : pyval;
  settings : Settings
}.

Definition set_metadata (self : t) (m : pyval) : t :=
  mk (default_value self) (name self) (value self) (value_type self)
     (scope self) m (setting_type self) (client_api self) (project self)
     (org self) (id self) (settings self).

(** [__init__]: the only check is on [value] and [default_value]. *)
Definition init (default_value value name value_type : pyval)
    (scope : SettingScope.t) (metadata setting_type id : pyval)
    (client_api project org : extref) : result t :=
  if is_none value && is_none default_value then
    Raise (Exception "Must provide either value or default_value")
  else
    Ok (mk default_value name value value_type scope metadata setting_type
           client_api project org id
           (mkSettings client_api project org)).

(** [from_json]: [_json.get('scope', None)] goes to
    [SettingScope.from_json] as it is. *)
Definition from_json (_json : pydict) (client_api project org : extref)
    : result t :=
  match SettingScope.from_json (get_or_none _json "scope") with
  | Raise e => Raise e
  | Ok scope =>
      init (get_or_none _json "defaultValue")
           (get_or_none _json "value")
           (get_or_none _json "name")
           (get_or_none _json "valueType")
           scope
           (get_or_none _json "metadata")
           (get_or_none _json "settingType")
           (get_or_none _json "id")
           client_api project org
  end.

(** The body of the loop of [__slot_to_db_slot], on one [display_scope]:
    a filter that is a dict is replaced by its JSON text. *)
Definition display_scope_step : mutation := fun display_scope =>
  match py_contains "filter" display_scope with
  | Raise e => (display_scope, Some e)
  | Ok false => (display_scope, None)
  | Ok true =>
      match py_getitem display_scope "filter" with
      | Raise e => (display_scope, Some e)
      | Ok f =>
          if isinstance_dict f then
            match py_setitem display_scope "filter" (PStr (json_dumps f)) with
            | Raise e => (display_scope, Some e)
            | Ok display_scope' => (display_scope', None)
            end
          else (display_scope, None)
      end
  end.

(** [__slot_to_db_slot].  When [scopes] is a list the loop works on the
    list held by the slot; when it is a string or a dict the loop visits
    fresh strings, which the body cannot change. *)
Definition slot_to_db_slot : mutation := fun slot =>
  match py_contains "displayScopes" slot with
  | Raise e => (slot, Some e)
  | Ok false => (slot, None)
  | Ok true =>
      match py_getitem slot "displayScopes" with
      | Raise e => (slot, Some e)
      | Ok scopes =>
          if truthy scopes then
            match py_iter scopes with
            | Raise e => (slot, Some e)
            | Ok items =>
                let (items', e) := for_each display_scope_step items in
                match slot, scopes with
                | PDict d, PList _ =>
                    (PDict (dict_set d "displayScopes" (PList items')), e)
                | _, _ => (slot, e)
                end
            end
          else (slot, None)
      end
  end.

(** The first statement of [to_json]: the pass over [metadata['slots']]. *)
Definition slots_to_db_slots : mutation := fun metadata =>
  if negb (is_none metadata) then
    match py_contains "slots" metadata with
    | Raise e => (metadata, Some e)
    | Ok false => (metadata, None)
    | Ok true =>
        match py_getitem metadata "slots" with
        | Raise e => (metadata, Some e)
        | Ok slots =>
            match metadata, slots with
            | PDict d, PList l =>
                let (l', e) := for_each slot_to_db_slot l in
                (PDict (dict_set d "slots" (PList l')), e)
            | _, _ => (metadata, None)
            end
        end
    end
  else (metadata, None).

(** [to_json] returns [self] as the call left it, and the dict or the
    exception.  The dict holds [self.metadata] itself, not a copy. *)
Definition to_json (self : t) : t * result pydict :=
  let (metadata', e) := slots_to_db_slots (metadata self) in
  let self := set_metadata self metadata' in
  match e with
  | Some e => (self, Raise e)
  | None =>
      let _json :=
        [ ("name", name self);
          ("valueType", value_type self);
          ("scope", PDict (SettingScope.to_json (scope self)));
          ("settingType", setting_type self);
          ("id", id self) ] in
      let _json := if negb (is_none (metadata self))
                   then dict_set _json "metadata" (metadata self) else _json in
      let _json := if negb (is_none (value self))
                   then dict_set _json "value" (value self) else _json in
      let _json := if negb (is_none (default_value self))
                   then dict_set _json "defaultValue" (default_value self) else _json in
      (self, Ok _json)
  end.

End BaseSetting.

(** ** Setting *)

Module Setting.

(** A [Setting] is a [BaseSetting] with the presentation fields. *)
Record t : Type := mk {
  base : BaseSetting.t;
  description : pyval;
  inputs : pyval;
  icon : pyval;
  section_name : pyval;
  hint : pyval;
  sub_section_name : pyval
}.

Definition set_base (self : t) (b : BaseSetting.t) : t :=
  mk b (description self) (inputs self) (icon self) (section_name self)
     (hint self) (sub_section_name self).

(** [__init__]: the base constructor runs first, with [setting_type] fixed. *)
Definition init (value name value_type : pyval) (scope : SettingScope.t)
    (section_name default_value inputs metadata description icon id
       sub_section_name hint : pyval)
    (client_api project org : extref) : result t :=
  match BaseSetting.init default_value value name value_type scope metadata
          (PStr (SettingsTypes_value USER_SETTINGS)) id
          client_api project org with
  | Raise e => Raise e
  | Ok b => Ok (mk b description inputs icon section_name hint sub_section_name)
  end.

Definition from_json (_json : pydict) (client_api project org : extref)
    : result t :=
  match SettingScope.from_json (get_or_none _json "scope") with
  | Raise e => Raise e
  | Ok scope =>
      init (get_or_none _json "value")
           (get_or_none _json "name")
           (get_or_none _json "valueType")
           scope
           (get_or_none _json "sectionName")
           (get_or_none _json "defaultValue")
           (get_or_none _json "inputs")
           (get_or_none _json "metadata")
           (get_or_none _json "description")
           (get_or_none _json "icon")
           (get_or_none _json "id")
           (get_or_none _json "subSectionName")
           (get_or_none _json "hint")
           client_api project org
  end.

(** [to_json]: the base serialisation, then the fields of the subclass, then
    [id] once more. *)
Definition to_json (self : t) : t * result pydict :=
  let (b, r) := BaseSetting.to_json (base self) in
  let self := set_base self b in
  match r with
  | Raise e => (self, Raise e)
  | Ok _json =>
      let _json := if negb (is_none (description self))
                   then dict_set _json "description" (description self) else _json in
      let _json := if negb (is_none (inputs self))
                   then dict_set _json "inputs" (inputs self) else _json in
      let _json := if negb (is_none (icon self))
                   then dict_set _json "icon" (icon self) else _json in
      let _json := if negb (is_none (section_name self))
                   then dict_set _json "sectionName" (section_name self) else _json in
      let _json := if negb (is_none (hint self))
                   then dict_set _json "hint" (hint self) else _json in
      let _json := if negb (is_none (sub_section_name self))
                   then dict_set _json "subSectionName" (sub_section_name self) else _json in
      let _json := if negb (is_none (BaseSetting.id (base self)))
                   then dict_set _json "id" (BaseSetting.id (base self)) else _json in
      (self, Ok _json)
  end.

End Setting.

(** ** UserSetting *)

(** What [warnings.warn] is called with. *)
Inductive warning_category : Type :=
| DeprecationWarning.

Record warning : Type := mkWarning {
  category : warning_category;
  message : string
}.

(** The action that the search of [warnings.filters] gives for a warning
    ([warnings.defaultaction] when no filter matches).  It is set by the
    caller of the library, not by the library. *)
Inductive filter_action : Type :=
| action_error
| action_ignore
| action_always
| action_default
| action_module
| action_once.

(** The part of the state of the [warnings] module that the call of
    [warnings.warn] at one place reads and writes: the entry of this warning
    in the registry of the calling module, the entry of its key without the
    line number, its entry in the once-registry, and the warnings handed to
    [showwarning] so far, which is where the caller sees them. *)
Record warnings_state : Type := mkWarnings {
  registry_key : bool;
  registry_altkey : bool;
  onceregistry_key : bool;
  shown : list warning
}.

(** [warnings.warn(message, category)], after [warn_explicit] of the
    standard library: a warning whose registry entry is set is dropped
    before the filters are looked at; then the action decides. *)
Definition warn (action : filter_action) (w : warning) (st : warnings_state)
    : result unit * warnings_state :=
  if registry_key st then (Ok tt, st)
  else
    match action with
    | action_ignore => (Ok tt, st)
    | action_error => (Raise (RaisedWarning (message w)), st)
    | action_once =>
        if onceregistry_key st
        then (Ok tt, mkWarnings true (registry_altkey st) true (shown st))
        else (Ok tt, mkWarnings true (registry_altkey st) true
                       (shown st ++ [w])%list)
    | action_always =>
        (Ok tt, mkWarnings false (registry_altkey st) (onceregistry_key st)
                  (shown st ++ [w])%list)
    | action_module =>
        if registry_altkey st
        then (Ok tt, mkWarnings true true (onceregistry_key st) (shown st))
        else (Ok tt, mkWarnings true true (onceregistry_key st)
                       (shown st ++ [w])%list)
    | action_default =>
        (Ok tt, mkWarnings true (registry_altkey st) (onceregistry_key st)
                  (shown st ++ [w])%list)
    end.

(** The three classes of settings, the methods their bodies define, and the
    class a method call on an instance runs. *)
Inductive class_name : Type :=
| BaseSetting_class
| Setting_class
| UserSetting_class.

Inductive method_name : Type :=
| init_method
| from_json_method
| slot_to_db_slot_method
| to_json_method
| delete_method
| update_method.

Definition base_class (c : class_name) : option class_name :=
  match c with
  | BaseSetting_class => None
  | Setting_class => Some BaseSetting_class
  | UserSetting_class => Some Setting_class
  end.

Definition defines (c : class_name) (m : method_name) : bool :=
  match c, m with
  | BaseSetting_class, _ => true
  | Setting_class, (init_method | from_json_method | to_json_method) => true
  | UserSetting_class, init_method => true
  | _, _ => false
  end.

Fixpoint resolve_in (depth : nat) (c : class_name) (m : method_name)
    : option class_name :=
  if defines c m then Some c
  else match depth, base_class c with
       | S depth', Some b => resolve_in depth' b m
       | _, _ => None
       end.

Definition resolve : class_name -> method_name -> option class_name :=
  resolve_in 2.

Module UserSetting.

(** The class adds no field and overrides only [__init__]. *)
Definition t : Type := Setting.t.

(** [__init__] calls [warnings.warn] and, when that call returns, the
    constructor of [Setting]. *)
Definition init (default_value value name value_type : pyval)
    (scope : SettingScope.t)
    (section_name inputs metadata description icon id sub_section_name
       hint : pyval)
    (client_api project org : extref)
    (action : filter_action) (st : warnings_state)
    : result t * warnings_state :=
  match warn action
          (mkWarning DeprecationWarning
             "UserSetting will be Deprecation from version 1.62 use Setting")
          st with
  | (Raise e, st) => (Raise e, st)
  | (Ok _, st) =>
      (Setting.init value name value_type scope section_name default_value
         inputs metadata description icon id sub_section_name hint
         client_api project org,
       st)
  end.

(** Inherited from [Setting]: the static method builds a [Setting]. *)
Definition from_json : pydict -> extref -> extref -> extref -> result Setting.t :=
  Setting.from_json.

(** Inherited from [Setting]. *)
Definition to_json : t -> t * result pydict := Setting.to_json.

End UserSetting.

(** ** Vocabulary of the statements *)

(** What a scope field is after one trip through [to_json] and
    [from_json]: itself when it is truthy, [None] otherwise. *)
Definition keep_truthy (v : pyval) : pyval :=
  if truthy v then v else PNone.

Definition scope_keep_truthy (s : SettingScope.t) : SettingScope.t :=
  SettingScope.mk
    (keep_truthy (SettingScope.type s))
    (keep_truthy (SettingScope.id s))
    (keep_truthy (SettingScope.role s))
    (keep_truthy (SettingScope.prevent_override s))
    (keep_truthy (SettingScope.visible s)).

(** The values that are not containers. *)
Definition is_scalar (v : pyval) : bool :=
  match v with
  | PList _ | PDict _ => false
  | _ => true
  end.

(** The wire form of a filter: the JSON text of a dict, anything else as it
    is. *)
Definition encode_filter (f : pyval) : pyval :=
  if isinstance_dict f then PStr (json_dumps f) else f.

(** The list under [metadata['slots']], the list under
    [slot['displayScopes']] and the value under [display_scope['filter']],
    where the container is a dict and holds one. *)
Definition slots_of (metadata : pyval) : option (list pyval) :=
  match metadata with
  | PDict d =>
      match dict_get d "slots" with
      | Some (PList l) => Some l
      | _ => None
      end
  | _ => None
  end.

Definition scopes_of (slot : pyval) : option (list pyval) :=
  match slot with
  | PDict d =>
      match dict_get d "displayScopes" with
      | Some (PList l) => Some l
      | _ => None
      end
  | _ => None
  end.

Definition filter_of (display_scope : pyval) : option pyval :=
  match display_scope with
  | PDict d => dict_get d "filter"
  | _ => None
  end.

Definition and_then {A B : Type} (o : option A) (f : A -> option B) : option B :=
  match o with
  | Some a => f a
  | None => None
  end.

(** [metadata['slots'][i]['displayScopes'][j]['filter']], where [slots] and
    [displayScopes] are lists and the other three are dicts. *)
Definition filter_at (metadata : pyval) (i j : nat) : option pyval :=
  and_then (slots_of metadata) (fun slots =>
  and_then (nth_error slots i) (fun slot =>
  and_then (scopes_of slot) (fun scopes =>
  and_then (nth_error scopes j) filter_of))).

(** The shape of [metadata] in the wire format: null, or a dict whose
    [slots], when a list, holds dicts whose [displayScopes], when present, is
    null or a list of dicts. *)
Definition display_scopes_shaped (v : pyval) : bool :=
  match v with
  | PNone => true
  | PList l => forallb isinstance_dict l
  | _ => false
  end.

Definition slot_shaped (slot : pyval) : bool :=
  match slot with
  | PDict d =>
      match dict_get d "displayScopes" with
      | Some v => display_scopes_shaped v
      | None => true
      end
  | _ => false
  end.

Definition metadata_shaped (metadata : pyval) : bool :=
  match metadata with
  | PNone => true
  | PDict d =>
      match dict_get d "slots" with
      | Some (PList l) => forallb slot_shaped l
      | _ => true
      end
  | _ => false
  end.

(** [field] is what [d.get(k, None)] reads: the stored value, or [None] when
    the key is absent. *)
Definition reads_key (d : pydict) (k : string) (field : pyval) : Prop :=
  match dict_get d k with
  | Some v => field = v
  | None => field = PNone
  end.

(** The keys [SettingScope.to_json] can write. *)
Definition scope_keys : list string :=
  ["type"; "id"; "role"; "preventOverride"; "visible"].

(** The keys [BaseSetting.to_json] can write. *)
Definition base_keys : list string :=
  ["name"; "valueType"; "scope"; "settingType"; "id";
   "metadata"; "value"; "defaultValue"].

(** The keys [Setting.to_json] adds to those of the base class. *)
Definition setting_keys : list string :=
  ["description"; "inputs"; "icon"; "sectionName"; "hint"; "subSectionName"].

(** The value every [Setting] carries as its [setting_type]. *)
Definition user_settings : pyval := PStr (SettingsTypes_value USER_SETTINGS).

(** The warning issued by the constructor of [UserSetting]. *)
Definition deprecation : warning :=
  mkWarning DeprecationWarning
    "UserSetting will be Deprecation from version 1.62 use Setting".

(** The keys [BaseSetting.from_json] and [Setting.from_json] read. *)
Definition base_read_keys : list string :=
  ["scope"; "defaultValue"; "name"; "value"; "valueType"; "metadata"; "id";
   "settingType"].

Definition setting_read_keys : list string :=
  ["scope"; "defaultValue"; "name"; "value"; "valueType"; "metadata";
   "description"; "inputs"; "icon"; "sectionName"; "hint"; "subSectionName";
   "id"].

(** The message of the only exception the constructors raise themselves. *)
Definition must_provide : exn :=
  Exception "Must provide either value or default_value".

(** A scope field that survives the trip through [to_json] and
    [from_json]: truthy, or [None] already. *)
Definition survives (v : pyval) : bool := truthy v || is_none v.

(** Whether a call of [warn] raises, and whether it hands its warning to
    [showwarning]. *)
Definition fatal (action : filter_action) (st : warnings_state) : bool :=
  negb (registry_key st) &&
  match action with
  | action_error => true
  | _ => false
  end.

Definition shows (action : filter_action) (st : warnings_state) : bool :=
  negb (registry_key st) &&
  match action with
  | action_always | action_default => true
  | action_module => negb (registry_altkey st)
  | action_once => negb (onceregistry_key st)
  | action_error | action_ignore => false
  end.

(** The state of the warnings after [n] constructions in a row, the caller
    going on after a construction that raised. *)
Fixpoint after_constructions {A : Type} (n : nat)
    (construct : warnings_state -> result A * warnings_state)
    (st : warnings_state) : warnings_state :=
  match n with
  | 0 => st
  | S n' => after_constructions n' construct (snd (construct st))
  end.

(** ** Objects with identity

    [BaseSetting.to_json] above works on values, which is how an entity
    read from JSON text looks.  Its first statement, however, writes into
    dict objects, and a dict object can be reached along several paths.
    This second embedding of [__slot_to_db_slot] and [to_json] keeps lists
    and dicts in a store, by address, so that a write is seen along every
    path.  [to_json] assigns no attribute of [self]: it returns the store
    and the dict it built, or the exception. *)

Module InPlace.

Definition addr : Type := nat.

(** A value: immutable and held directly, or the address of a list or a
    dict. *)
Inductive hval : Type :=
| HNone
| HBool (b : bool)
| HInt (z : Z)
| HFloat (repr : string)
| HStr (s : string)
| HRef (a : addr).

Fixpoint assoc_get {V : Type} (d : list (string * V)) (k : string) : option V :=
  match d with
  | [] => None
  | (k', v) :: r => if String.eqb k k' then Some v else assoc_get r k
  end.

Fixpoint assoc_set {V : Type} (d : list (string * V)) (k : string) (v : V)
    : list (string * V) :=
  match d with
  | [] => [(k, v)]
  | (k', v') :: r =>
      if String.eqb k k' then (k', v) :: r else (k', v') :: assoc_set r k v
  end.

Definition hdict : Type := list (string * hval).

Inductive obj : Type :=
| OList (l : list hval)
| ODict (d : hdict).

Definition store : Type := addr -> obj.

Definition store_set (h : store) (a : addr) (o : obj) : store :=
  fun a' => if Nat.eqb a' a then o else h a'.

Definition is_none (v : hval) : bool :=
  match v with HNone => true | _ => false end.

Definition isinstance_dict (h : store) (v : hval) : bool :=
  match v with
  | HRef a => match h a with ODict _ => true | OList _ => false end
  | _ => false
  end.

Definition truthy (h : store) (v : hval) : bool :=
  match v with
  | HNone => false
  | HBool b => b
  | HInt z => negb (z =? 0)%Z
  | HFloat r => negb (String.eqb r "0.0" || String.eqb r "-0.0")
  | HStr s => negb (String.eqb s "")
  | HRef a =>
      match h a with
      | OList l => match l with [] => false | _ => true end
      | ODict d => match d with [] => false | _ => true end
      end
  end.

Definition py_contains (k : string) (v : hval) (h : store) : result bool :=
  match v with
  | HStr s => Ok (str_contains k s)
  | HRef a =>
      match h a with
      | ODict d => Ok (match assoc_get d k with Some _ => true | None => false end)
      | OList l =>
          Ok (existsb (fun x => match x with
                                | HStr s => String.eqb k s
                                | _ => false
                                end) l)
      end
  | _ => Raise TypeError
  end.

Definition py_getitem (v : hval) (k : string) (h : store) : result hval :=
  match v with
  | HRef a =>
      match h a with
      | ODict d =>
          match assoc_get d k with Some x => Ok x | None => Raise KeyError end
      | OList _ => Raise TypeError
      end
  | _ => Raise TypeError
  end.

Definition py_setitem (v : hval) (k : string) (x : hval) (h : store)
    : result store :=
  match v with
  | HRef a =>
      match h a with
      | ODict d => Ok (store_set h a (ODict (assoc_set d k x)))
      | OList _ => Raise TypeError
      end
  | _ => Raise TypeError
  end.

Definition py_iter (v : hval) (h : store) : result (list hval) :=
  match v with
  | HStr s => Ok (map (fun c => HStr (String c "")) (list_ascii_of_string s))
  | HRef a =>
      match h a with
      | OList l => Ok l
      | ODict d => Ok (map (fun kv => HStr (fst kv)) d)
      end
  | _ => Raise TypeError
  end.

(** The value that [json.dumps] walks: [ValueError] at a container met
    again on the path from the root (a circular reference),
    [RecursionError] below [depth] nested containers. *)
Fixpoint reify (depth : nat) (path : list addr) (h : store) (v : hval)
    : result pyval :=
  match v with
  | HNone => Ok PNone
  | HBool b => Ok (PBool b)
  | HInt z => Ok (PInt z)
  | HFloat r => Ok (PFloat r)
  | HStr s => Ok (PStr s)
  | HRef a =>
      if existsb (Nat.eqb a) path then Raise ValueError
      else
        match depth with
        | 0 => Raise RecursionError
        | S depth' =>
            match h a with
            | OList l =>
                match (fix items (l : list hval) : result (list pyval) :=
                         match l with
                         | [] => Ok []
                         | x :: r =>
                             match reify depth' (a :: path) h x with
                             | Raise e => Raise e
                             | Ok t =>
                                 match items r with
                                 | Raise e => Raise e
                                 | Ok ts => Ok (t :: ts)
                                 end
                             end
                         end) l with
                | Raise e => Raise e
                | Ok ts => Ok (PList ts)
                end
            | ODict d =>
                match (fix members (d : hdict) : result pydict :=
                         match d with
                         | [] => Ok []
                         | (k, x) :: r =>
                             match reify depth' (a :: path) h x with
                             | Raise e => Raise e
                             | Ok t =>
                                 match members r with
                                 | Raise e => Raise e
                                 | Ok ts => Ok ((k, t) :: ts)
                                 end
                             end
                         end) d with
                | Raise e => Raise e
                | Ok ts => Ok (PDict ts)
                end
            end
        end
  end.

(** [json.dumps] of a value in the store; [recursion_limit] is what the
    interpreter leaves of its recursion limit at the call. *)
Definition dumps (recursion_limit : nat) (h : store) (v : hval)
    : result string :=
  match reify recursion_limit [] h v with
  | Raise e => Raise e
  | Ok t => Ok (json_dumps t)
  end.

(** The body of a loop reads and writes the store. *)
Definition mutation : Type := hval -> store -> store * option exn.

(** The loops of the source run over lists that no statement of the source
    changes, so the elements can be taken when the loop starts. *)
Fixpoint for_each (body : mutation) (l : list hval) (h : store)
    : store * option exn :=
  match l with
  | [] => (h, None)
  | x :: r =>
      match body x h with
      | (h', Some e) => (h', Some e)
      | (h', None) => for_each body r h'
      end
  end.

Definition display_scope_step (recursion_limit : nat) : mutation :=
  fun display_scope h =>
    match py_contains "filter" display_scope h with
    | Raise e => (h, Some e)
    | Ok false => (h, None)
    | Ok true =>
        match py_getitem display_scope "filter" h with
        | Raise e => (h, Some e)
        | Ok f =>
            if isinstance_dict h f then
              match dumps recursion_limit h f with
              | Raise e => (h, Some e)
              | Ok s =>
                  match py_setitem display_scope "filter" (HStr s) h with
                  | Raise e => (h, Some e)
                  | Ok h' => (h', None)
                  end
              end
            else (h, None)
        end
    end.

Definition slot_to_db_slot (recursion_limit : nat) : mutation :=
  fun slot h =>
    match py_contains "displayScopes" slot h with
    | Raise e => (h, Some e)
    | Ok false => (h, None)
    | Ok true =>
        match py_getitem slot "displayScopes" h with
        | Raise e => (h, Some e)
        | Ok scopes =>
            if truthy h scopes then
              match py_iter scopes h with
              | Raise e => (h, Some e)
              | Ok items => for_each (display_scope_step recursion_limit) items h
              end
            else (h, None)
        end
    end.

(** The first statement of [to_json]. *)
Definition slots_to_db_slots (recursion_limit : nat) : mutation :=
  fun metadata h =>
    if negb (is_none metadata) then
      match py_contains "slots" metadata h with
      | Raise e => (h, Some e)
      | Ok false => (h, None)
      | Ok true =>
          match py_getitem metadata "slots" h with
          | Raise e => (h, Some e)
          | Ok (HRef a) =>
              match h a with
              | OList l => for_each (slot_to_db_slot recursion_limit) l h
              | ODict _ => (h, None)
              end
          | Ok _ => (h, None)
          end
      end
    else (h, None).

(** The attributes of a [SettingScope] and of a [BaseSetting] that
    [to_json] reads. *)
Record scope_t : Type := mk_scope {
  scope_type : hval;
  scope_id : hval;
  scope_role : hval;
  scope_prevent_override : hval;
  scope_visible : hval
}.

Record t : Type := mk {
  default_value : hval;
  name : hval;
  value : hval;
  value_type : hval;
  scope : scope_t;
  metadata : hval;
  setting_type : hval;
  id : hval
}.

Definition scope_to_json (h : store) (self : scope_t) : hdict :=
  let _json := [] in
  let _json := if truthy h (scope_type self)
               then assoc_set _json "type" (scope_type self) else _json in
  let _json := if truthy h (scope_id self)
               then assoc_set _json "id" (scope_id self) else _json in
  let _json := if truthy h (scope_role self)
               then assoc_set _json "role" (scope_role self) else _json in
  let _json := if truthy h (scope_prevent_override self)
               then assoc_set _json "preventOverride" (scope_prevent_override self)
               else _json in
  let _json := if truthy h (scope_visible self)
               then assoc_set _json "visible" (scope_visible self) else _json in
  _json.

(** A value of the dict that [to_json] builds: a value the entity holds, or
    the dict that [scope.to_json()] has just made. *)
Inductive outval : Type :=
| Held (v : hval)
| Fresh (d : hdict).

Definition to_json (recursion_limit : nat) (self : t) (h : store)
    : store * result (list (string * outval)) :=
  match slots_to_db_slots recursion_limit (metadata self) h with
  | (h, Some e) => (h, Raise e)
  | (h, None) =>
      let _json :=
        [ ("name", Held (name self));
          ("valueType", Held (value_type self));
          ("scope", Fresh (scope_to_json h (scope self)));
          ("settingType", Held (setting_type self));
          ("id", Held (id self)) ] in
      let _json := if negb (is_none (metadata self))
                   then assoc_set _json "metadata" (Held (metadata self))
                   else _json in
      let _json := if negb (is_none (value self))
                   then assoc_set _json "value" (Held (value self))
                   else _json in
      let _json := if negb (is_none (default_value self))
                   then assoc_set _json "defaultValue" (Held (default_value self))
                   else _json in
      (h, Ok _json)
  end.

(** [metadata['slots'][i]['displayScopes'][j]] and its [filter], where
    [slots] and [displayScopes] are lists and the rest dicts. *)
Definition slots_of (h : store) (metadata : hval) : option (list hval) :=
  match metadata with
  | HRef a =>
      match h a with
      | ODict d =>
          match assoc_get d "slots" with
          | Some (HRef b) =>
              match h b with OList l => Some l | ODict _ => None end
          | _ => None
          end
      | OList _ => None
      end
  | _ => None
  end.

Definition scopes_of (h : store) (slot : hval) : option (list hval) :=
  match slot with
  | HRef a =>
      match h a with
      | ODict d =>
          match assoc_get d "displayScopes" with
          | Some (HRef b) =>
              match h b with OList l => Some l | ODict _ => None end
          | _ => None
          end
      | OList _ => None
      end
  | _ => None
  end.

Definition filter_of (h : store) (display_scope : hval) : option hval :=
  match display_scope with
  | HRef a =>
      match h a with
      | ODict d => assoc_get d "filter"
      | OList _ => None
      end
  | _ => None
  end.

Definition filter_at (h : store) (metadata : hval) (i j : nat) : option hval :=
  and_then (slots_of h metadata) (fun slots =>
  and_then (nth_error slots i) (fun slot =>
  and_then (scopes_of h slot) (fun scopes =>
  and_then (nth_error scopes j) (filter_of h)))).

(** What the writes of [to_json] can do to the store: a list is as it was;
    a dict has its keys, in their order, and its values, except that the
    value under [filter] may have gone from a dict to a string. *)
Definition filters_encoded (h h' : store) : Prop :=
  forall a,
    match h a, h' a with
    | OList l, OList l' => l' = l
    | ODict d, ODict d' =>
        map fst d' = map fst d /\
        (forall k, k <> "filter" -> assoc_get d' k = assoc_get d k) /\
        (assoc_get d' "filter" = assoc_get d "filter" \/
         exists f s,
           assoc_get d "filter" = Some f /\
           isinstance_dict h f = true /\
           assoc_get d' "filter" = Some (HStr s))
    | _, _ => False
    end.


End InPlace.

(** An entity whose [value] is the display scope of its metadata: the dict
    at address 4 is reached from both fields. *)
Definition shared_store : InPlace.store :=
  fun a =>
    match a with
    | 0 => InPlace.ODict [("slots", InPlace.HRef 1)]
    | 1 => InPlace.OList [InPlace.HRef 2]
    | 2 => InPlace.ODict [("displayScopes", InPlace.HRef 3)]
    | 3 => InPlace.OList [InPlace.HRef 4]
    | 4 => InPlace.ODict [("filter", InPlace.HRef 5)]
    | 5 => InPlace.ODict [("a", InPlace.HInt 1)]
    | _ => InPlace.OList []
    end.

Definition shared_setting : InPlace.t :=
  InPlace.mk InPlace.HNone (InPlace.HStr "panel") (InPlace.HRef 4)
    (InPlace.HStr "select")
    (InPlace.mk_scope (InPlace.HStr "user") InPlace.HNone InPlace.HNone
       InPlace.HNone InPlace.HNone)
    (InPlace.HRef 0) (InPlace.HStr "user_settings") InPlace.HNone.


(** * Properties *)

(** ** Dicts *)

Lemma dict_get_set_same (d : pydict) (k : string) (v : pyval) :
  dict_get (dict_set d k v) k = Some v.
Proof.
  induction d as [|[k' v'] r IH]; simpl.
  - now rewrite String.eqb_refl.
  - destruct (String.eqb k k') eqn:E; simpl; rewrite E; auto.
Qed.

Lemma dict_get_set_other (d : pydict) (k k' : string) (v : pyval) :
  String.eqb k' k = false ->
  dict_get (dict_set d k v) k' = dict_get d k'.
Proof.
  intros N. induction d as [|[k0 v0] r IH]; simpl.
  - now rewrite N.
  - destruct (String.eqb k k0) eqn:E; simpl.
    + apply String.eqb_eq in E. subst k0. now rewrite N.
    + destruct (String.eqb k' k0); auto.
Qed.

Lemma dict_get_set (d : pydict) (k k' : string) (v : pyval) :
  dict_get (dict_set d k v) k' =
  if String.eqb k' k then Some v else dict_get d k'.
Proof.
  destruct (String.eqb k' k) eqn:E.
  - apply String.eqb_eq in E. subst. apply dict_get_set_same.
  - now apply dict_get_set_other.
Qed.

Lemma dict_set_twice (d : pydict) (k : string) (v w : pyval) :
  dict_set (dict_set d k v) k w = dict_set d k w.
Proof.
  induction d as [|[k' v'] r IH]; simpl.
  - now rewrite String.eqb_refl.
  - destruct (String.eqb k k') eqn:E; simpl; rewrite E; congruence.
Qed.

Lemma dict_set_same_value (d : pydict) (k : string) (v : pyval) :
  dict_get d k = Some v -> dict_set d k v = d.
Proof.
  induction d as [|[k' v'] r IH]; simpl; [discriminate|].
  destruct (String.eqb k k') eqn:E; intros H.
  - congruence.
  - now rewrite IH.
Qed.

(** A conditional store, as [to_json] writes its optional keys. *)
Lemma dict_get_cond_set (c : bool) (d : pydict) (k k' : string) (v : pyval) :
  dict_get (if c then dict_set d k v else d) k' =
  if c && String.eqb k' k then Some v else dict_get d k'.
Proof.
  destruct c; simpl; [apply dict_get_set | reflexivity].
Qed.

Lemma get_or_none_absent (d : pydict) (k : string) :
  dict_get d k = None -> get_or_none d k = PNone.
Proof. unfold get_or_none. now intros ->. Qed.

Lemma get_or_none_present (d : pydict) (k : string) (v : pyval) :
  dict_get d k = Some v -> get_or_none d k = v.
Proof. unfold get_or_none. now intros ->. Qed.

Lemma negb_is_none (v : pyval) : negb (is_none v) = true <-> v <> PNone.
Proof. destruct v; simpl; split; congruence. Qed.

(** ** Truth values *)

Lemma truthy_scalar (v : pyval) :
  is_scalar v = true ->
  (truthy v = true <->
   v <> PNone /\ v <> PBool false /\ v <> PInt 0 /\
   v <> PFloat "0.0" /\ v <> PFloat "-0.0" /\ v <> PStr "").
Proof.
  intros S. destruct v as [|b|z|r|s|l|d]; simpl in *; try discriminate.
  - split; [discriminate | intros (H & _); congruence].
  - destruct b; split; try discriminate; intros; repeat split; try congruence.
    destruct H as (_ & H & _). congruence.
  - destruct (Z.eqb_spec z 0); simpl; split; try discriminate.
    + subst. intros (_ & _ & H & _). congruence.
    + intros _. repeat split; congruence.
    + intros _. reflexivity.
  - destruct (String.eqb_spec r "0.0"); simpl.
    + subst. split; [discriminate|]. intros (_ & _ & _ & H & _). congruence.
    + destruct (String.eqb_spec r "-0.0"); simpl.
      * subst. split; [discriminate|]. intros (_ & _ & _ & _ & H & _). congruence.
      * split; auto. intros _. repeat split; congruence.
  - destruct (String.eqb_spec s ""); simpl.
    + subst. split; [discriminate|]. intros (_ & _ & _ & _ & _ & H). congruence.
    + split; auto. intros _. repeat split; congruence.
Qed.

Lemma reads_get_or_none (d : pydict) (k : string) :
  reads_key d k (get_or_none d k).
Proof. unfold reads_key, get_or_none. now destruct (dict_get d k). Qed.

Lemma dict_mem_keys (d : pydict) (k : string) :
  dict_mem d k = true -> In k (map fst d).
Proof.
  unfold dict_mem. induction d as [|[k' v'] r IH]; simpl; [discriminate|].
  destruct (String.eqb_spec k k'); auto.
Qed.

(** ** SettingScope *)

(** C5. [SettingScope.to_json] holds a key exactly when the field is truthy,
    then with the field as its value, and holds no other key; on the values
    that are not containers, truthy means: not null, not false, not zero,
    not the empty string. *)
Theorem C5_scope_to_json_truthy :
  (forall self : SettingScope.t,
     let out := SettingScope.to_json self in
     dict_get out "type" =
       (if truthy (SettingScope.type self) then Some (SettingScope.type self) else None) /\
     dict_get out "id" =
       (if truthy (SettingScope.id self) then Some (SettingScope.id self) else None) /\
     dict_get out "role" =
       (if truthy (SettingScope.role self) then Some (SettingScope.role self) else None) /\
     dict_get out "preventOverride" =
       (if truthy (SettingScope.prevent_override self)
        then Some (SettingScope.prevent_override self) else None) /\
     dict_get out "visible" =
       (if truthy (SettingScope.visible self) then Some (SettingScope.visible self) else None) /\
     (forall k, dict_mem out k = true -> In k scope_keys)) /\
  (forall v : pyval,
     is_scalar v = true ->
     (truthy v = true <->
      v <> PNone /\ v <> PBool false /\ v <> PInt 0 /\
      v <> PFloat "0.0" /\ v <> PFloat "-0.0" /\ v <> PStr "")).
Proof.
  split; [|exact truthy_scalar].
  intros [ty i r po vi]. unfold SettingScope.to_json. simpl.
  destruct (truthy ty), (truthy i), (truthy r), (truthy po), (truthy vi);
    simpl; repeat split; auto;
    intros k Hk; apply dict_mem_keys in Hk; simpl in Hk; unfold scope_keys;
    simpl; intuition.
Qed.

(** ** BaseSetting: construction *)

Lemma init_rejects
    (default_value value name value_type : pyval) (scope : SettingScope.t)
    (metadata setting_type id : pyval) (client_api project org : extref) :
  value = PNone /\ default_value = PNone ->
  BaseSetting.init default_value value name value_type scope metadata
    setting_type id client_api project org
  = Raise (Exception "Must provide either value or default_value").
Proof. intros [-> ->]. reflexivity. Qed.

Lemma init_accepts
    (default_value value name value_type : pyval) (scope : SettingScope.t)
    (metadata setting_type id : pyval) (client_api project org : extref) :
  value <> PNone \/ default_value <> PNone ->
  BaseSetting.init default_value value name value_type scope metadata
    setting_type id client_api project org
  = Ok (BaseSetting.mk default_value name value value_type scope metadata
          setting_type client_api project org id
          (mkSettings client_api project org)).
Proof.
  unfold BaseSetting.init.
  intros [H|H]; destruct value, default_value; simpl; congruence.
Qed.

(** C3. The constructor raises its validation error when [value] and
    [default_value] are both [None]; with one of them given it returns the
    entity with every field as passed, whatever the other fields are. *)
Theorem C3_init_validation
    (default_value value name value_type : pyval) (scope : SettingScope.t)
    (metadata setting_type id : pyval) (client_api project org : extref) :
  (value = PNone /\ default_value = PNone ->
   BaseSetting.init default_value value name value_type scope metadata
     setting_type id client_api project org
   = Raise (Exception "Must provide either value or default_value")) /\
  (value <> PNone \/ default_value <> PNone ->
   BaseSetting.init default_value value name value_type scope metadata
     setting_type id client_api project org
   = Ok (BaseSetting.mk default_value name value value_type scope metadata
           setting_type client_api project org id
           (mkSettings client_api project org))).
Proof. split; [apply init_rejects | apply init_accepts]. Qed.

Lemma C3_init_validation_witness :
  BaseSetting.init PNone PNone (PStr "flag1") (PStr "boolean")
    (SettingScope.mk (PStr "project") (PStr "p1") PNone PNone PNone)
    PNone (PStr "feature_flag") PNone (Ref 0) NoRef NoRef
  = Raise (Exception "Must provide either value or default_value")
  /\
  BaseSetting.init PNone (PBool false) (PStr "flag1") (PStr "boolean")
    (SettingScope.mk (PStr "project") (PStr "p1") PNone PNone PNone)
    PNone (PStr "feature_flag") PNone (Ref 0) NoRef NoRef
  = Ok (BaseSetting.mk PNone (PStr "flag1") (PBool false) (PStr "boolean")
          (SettingScope.mk (PStr "project") (PStr "p1") PNone PNone PNone)
          PNone (PStr "feature_flag") (Ref 0) NoRef NoRef PNone
          (mkSettings (Ref 0) NoRef NoRef)).
Proof.
  split.
  - apply (proj1 (C3_init_validation PNone PNone (PStr "flag1") (PStr "boolean")
                    (SettingScope.mk (PStr "project") (PStr "p1") PNone PNone PNone)
                    PNone (PStr "feature_flag") PNone (Ref 0) NoRef NoRef)).
    split; reflexivity.
  - apply (proj2 (C3_init_validation PNone (PBool false) (PStr "flag1") (PStr "boolean")
                    (SettingScope.mk (PStr "project") (PStr "p1") PNone PNone PNone)
                    PNone (PStr "feature_flag") PNone (Ref 0) NoRef NoRef)).
    left. discriminate.
Defined.

(** ** Deserialisation *)

(** [SettingScope.from_json] accepts every dict. *)
Lemma scope_from_json_dict (d : pydict) :
  SettingScope.from_json (PDict d)
  = Ok (SettingScope.mk (get_or_none d "type") (get_or_none d "id")
          (get_or_none d "role") (get_or_none d "preventOverride")
          (get_or_none d "visible")).
Proof. reflexivity. Qed.

(** Without a [scope] key, [BaseSetting.from_json] hands [None] to
    [SettingScope.from_json], whose [.get] raises. *)
Lemma from_json_without_scope (j : pydict) (c p o : extref) :
  dict_get j "scope" = None ->
  BaseSetting.from_json j c p o = Raise AttributeError.
Proof.
  intros H. unfold BaseSetting.from_json, get_or_none. now rewrite H.
Qed.

(** C4, as stated, fails: an object with a scope and neither [value] nor
    [defaultValue] is refused by the constructor that [from_json] calls. *)
Lemma C4_from_json_can_fail :
  BaseSetting.from_json [("name", PStr "flag1"); ("scope", PDict [])]
    (Ref 0) NoRef NoRef
  = Raise (Exception "Must provide either value or default_value").
Proof. reflexivity. Qed.

(** C4, amended.  [SettingScope.from_json] returns on every JSON object, with
    each field read from its key and [None] for an absent key.
    [BaseSetting.from_json], on an object whose [scope] is an object, returns
    the entity with each field read the same way when [value] or
    [defaultValue] is not null, whatever other keys the object has, and
    raises the validation error of the constructor when both are null or
    absent. *)
Theorem C4_from_json_on_scoped_object
    (j sd : pydict) (c p o : extref) :
  dict_get j "scope" = Some (PDict sd) ->
  (exists s,
     SettingScope.from_json (PDict sd) = Ok s /\
     reads_key sd "type" (SettingScope.type s) /\
     reads_key sd "id" (SettingScope.id s) /\
     reads_key sd "role" (SettingScope.role s) /\
     reads_key sd "preventOverride" (SettingScope.prevent_override s) /\
     reads_key sd "visible" (SettingScope.visible s) /\
     ((get_or_none j "value" <> PNone \/ get_or_none j "defaultValue" <> PNone) ->
      exists x,
        BaseSetting.from_json j c p o = Ok x /\
        BaseSetting.scope x = s /\
        reads_key j "defaultValue" (BaseSetting.default_value x) /\
        reads_key j "name" (BaseSetting.name x) /\
        reads_key j "value" (BaseSetting.value x) /\
        reads_key j "valueType" (BaseSetting.value_type x) /\
        reads_key j "metadata" (BaseSetting.metadata x) /\
        reads_key j "id" (BaseSetting.id x) /\
        reads_key j "settingType" (BaseSetting.setting_type x) /\
        BaseSetting.client_api x = c /\
        BaseSetting.project x = p /\
        BaseSetting.org x = o)) /\
  ((get_or_none j "value" = PNone /\ get_or_none j "defaultValue" = PNone) ->
   BaseSetting.from_json j c p o
   = Raise (Exception "Must provide either value or default_value")).
Proof.
  intros Hs.
  assert (Hg : get_or_none j "scope" = PDict sd)
    by (now apply get_or_none_present).
  split.
  - eexists. split; [apply scope_from_json_dict|]. simpl.
    repeat (split; [apply reads_get_or_none|]).
    intros Hv. unfold BaseSetting.from_json. rewrite Hg, scope_from_json_dict.
    eexists. split.
    + apply init_accepts. exact Hv.
    + simpl. repeat split; apply reads_get_or_none.
  - intros Hv. unfold BaseSetting.from_json. rewrite Hg, scope_from_json_dict.
    apply init_rejects. exact Hv.
Qed.

Lemma C4_from_json_on_scoped_object_witness :
  exists x,
    BaseSetting.from_json
      [("scope", PDict [("type", PStr "project")]); ("value", PInt 3);
       ("extra", PStr "ignored")] (Ref 0) NoRef NoRef = Ok x /\
    BaseSetting.name x = PNone /\
    BaseSetting.value x = PInt 3 /\
    SettingScope.type (BaseSetting.scope x) = PStr "project" /\
    SettingScope.visible (BaseSetting.scope x) = PNone.
Proof.
  destruct (C4_from_json_on_scoped_object
              [("scope", PDict [("type", PStr "project")]); ("value", PInt 3);
               ("extra", PStr "ignored")]
              [("type", PStr "project")] (Ref 0) NoRef NoRef eq_refl)
    as [[s (Hs & Ht & _ & _ & _ & Hvis & Hx)] _].
  destruct Hx as (x & Hx & Hsc & _ & Hn & Hv & _).
  - left. discriminate.
  - exists x. subst s. repeat split; assumption.
Defined.

(** ** Loops *)

Section ForEach.

Variable body : mutation.

(** A loop that ends normally has run its body on every element. *)
Lemma for_each_ok (l l' : list pyval) :
  for_each body l = (l', None) ->
  l' = map (fun x => fst (body x)) l /\
  Forall (fun x => snd (body x) = None) l.
Proof.
  revert l'. induction l as [|x r IH]; simpl; intros l' H.
  - inversion H. auto.
  - destruct (body x) as [x' [e|]] eqn:Bx; [discriminate|].
    destruct (for_each body r) as [r' e'] eqn:Fr.
    inversion H; subst. destruct (IH r' eq_refl) as [-> Hall].
    split; [reflexivity|]. constructor; [now rewrite Bx | exact Hall].
Qed.

Lemma for_each_ok_intro (l : list pyval) :
  Forall (fun x => snd (body x) = None) l ->
  for_each body l = (map (fun x => fst (body x)) l, None).
Proof.
  induction 1 as [|x r Hx _ IH]; simpl; [reflexivity|].
  destruct (body x) as [x' e]. simpl in *. subst e. now rewrite IH.
Qed.

(** A body that has nothing left to do on what it returned makes the loop
    idempotent. *)
Lemma for_each_stable (l l' : list pyval) :
  (forall x x', body x = (x', None) -> body x' = (x', None)) ->
  for_each body l = (l', None) ->
  for_each body l' = (l', None).
Proof.
  intros St H. apply for_each_ok in H. destruct H as [-> Hall].
  induction Hall as [|x r Hx _ IH]; simpl; [reflexivity|].
  destruct (body x) as [x' e] eqn:Bx. simpl in *. subst e.
  rewrite (St _ _ Bx). now rewrite IH.
Qed.

(** The loop changes the elements, never the frame of the other fields: on
    every outcome the list keeps its length. *)
Lemma for_each_length (l : list pyval) :
  List.length (fst (for_each body l)) = List.length l.
Proof.
  induction l as [|x r IH]; simpl; [reflexivity|].
  destruct (body x) as [x' [e|]]; simpl; [reflexivity|].
  destruct (for_each body r). simpl in *. now rewrite IH.
Qed.

End ForEach.

(** ** The pass over the slots *)

Lemma display_scope_step_dict (d : pydict) :
  BaseSetting.display_scope_step (PDict d) =
  (match dict_get d "filter" with
   | Some f =>
       if isinstance_dict f
       then PDict (dict_set d "filter" (PStr (json_dumps f)))
       else PDict d
   | None => PDict d
   end, None).
Proof.
  unfold BaseSetting.display_scope_step. simpl. unfold dict_mem.
  destruct (dict_get d "filter") as [f|]; [|reflexivity].
  now destruct (isinstance_dict f).
Qed.

Lemma display_scope_step_other (x : pyval) :
  isinstance_dict x = false -> fst (BaseSetting.display_scope_step x) = x.
Proof.
  intros H. unfold BaseSetting.display_scope_step.
  destruct x; try discriminate; simpl; try reflexivity.
  - now destruct (str_contains "filter" s).
  - now destruct (existsb _ l).
Qed.


Lemma display_scope_step_stable (x x' : pyval) :
  BaseSetting.display_scope_step x = (x', None) ->
  BaseSetting.display_scope_step x' = (x', None).
Proof.
  intros H. destruct (isinstance_dict x) eqn:E.
  - destruct x; try discriminate. rewrite display_scope_step_dict in H.
    destruct (dict_get d "filter") as [f|] eqn:G.
    + destruct (isinstance_dict f) eqn:F; inversion H; subst.
      * rewrite display_scope_step_dict, dict_get_set_same. reflexivity.
      * rewrite display_scope_step_dict, G, F. reflexivity.
    + inversion H; subst. rewrite display_scope_step_dict, G. reflexivity.
  - pose proof (display_scope_step_other x E) as F. rewrite H in F. simpl in F.
    subst x'. exact H.
Qed.

(** On a slot whose [displayScopes] is a list, [__slot_to_db_slot] is the
    loop over that list. *)
Lemma slot_to_db_slot_list (d : pydict) (l : list pyval) :
  dict_get d "displayScopes" = Some (PList l) ->
  BaseSetting.slot_to_db_slot (PDict d) =
  (let (l', e) := for_each BaseSetting.display_scope_step l in
   (PDict (dict_set d "displayScopes" (PList l')), e)).
Proof.
  intros G. unfold BaseSetting.slot_to_db_slot. simpl. unfold dict_mem.
  rewrite G. destruct l as [|x r]; simpl.
  - now rewrite dict_set_same_value.
  - reflexivity.
Qed.

(** On any other slot it changes nothing. *)
Lemma slot_to_db_slot_other (slot : pyval) :
  scopes_of slot = None -> fst (BaseSetting.slot_to_db_slot slot) = slot.
Proof.
  intros N. unfold BaseSetting.slot_to_db_slot.
  destruct slot as [| | | |s|l|d]; simpl; try reflexivity.
  - now destruct (str_contains "displayScopes" s).
  - now destruct (existsb _ l).
  - simpl in N. unfold dict_mem.
    destruct (dict_get d "displayScopes") as [scopes|]; [|reflexivity].
    destruct scopes as [|b|z|r|s|l|d']; simpl; try reflexivity; try discriminate.
    + now destruct b.
    + now destruct (negb (z =? 0)%Z).
    + now destruct (negb _).
    + destruct (negb (String.eqb s "")); [|reflexivity].
      now destruct (for_each _ _).
    + destruct d'; [reflexivity|]. now destruct (for_each _ _).
Qed.


Lemma slot_to_db_slot_stable (slot slot' : pyval) :
  BaseSetting.slot_to_db_slot slot = (slot', None) ->
  BaseSetting.slot_to_db_slot slot' = (slot', None).
Proof.
  intros H. destruct (scopes_of slot) as [l|] eqn:S.
  - destruct slot as [| | | | | |d]; try discriminate. simpl in S.
    destruct (dict_get d "displayScopes") as [[| | | | |l0|]|] eqn:G;
      try discriminate.
    inversion S; subst l0. rewrite (slot_to_db_slot_list _ _ G) in H.
    destruct (for_each _ l) as [l' e] eqn:F. inversion H; subst.
    rewrite (slot_to_db_slot_list _ l') by apply dict_get_set_same.
    rewrite (for_each_stable _ _ _ display_scope_step_stable F).
    now rewrite dict_set_twice.
  - pose proof (slot_to_db_slot_other slot S) as E. rewrite H in E.
    simpl in E. now subst slot'.
Qed.

(** The same three facts one level up, for the pass over [slots]. *)
Lemma slots_to_db_slots_list (d : pydict) (l : list pyval) :
  dict_get d "slots" = Some (PList l) ->
  BaseSetting.slots_to_db_slots (PDict d) =
  (let (l', e) := for_each BaseSetting.slot_to_db_slot l in
   (PDict (dict_set d "slots" (PList l')), e)).
Proof.
  intros G. unfold BaseSetting.slots_to_db_slots. simpl. unfold dict_mem.
  now rewrite G.
Qed.

Lemma slots_to_db_slots_other (metadata : pyval) :
  slots_of metadata = None ->
  fst (BaseSetting.slots_to_db_slots metadata) = metadata.
Proof.
  intros N. unfold BaseSetting.slots_to_db_slots.
  destruct metadata as [| | | |s|l|d]; simpl; try reflexivity.
  - now destruct (str_contains "slots" s).
  - now destruct (existsb _ l).
  - simpl in N. unfold dict_mem.
    destruct (dict_get d "slots") as [slots|]; [|reflexivity].
    destruct slots; simpl; try reflexivity; discriminate.
Qed.


Lemma slots_to_db_slots_stable (metadata metadata' : pyval) :
  BaseSetting.slots_to_db_slots metadata = (metadata', None) ->
  BaseSetting.slots_to_db_slots metadata' = (metadata', None).
Proof.
  intros H. destruct (slots_of metadata) as [l|] eqn:S.
  - destruct metadata as [| | | | | |d]; try discriminate. simpl in S.
    destruct (dict_get d "slots") as [[| | | | |l0|]|] eqn:G; try discriminate.
    inversion S; subst l0. rewrite (slots_to_db_slots_list _ _ G) in H.
    destruct (for_each _ l) as [l' e] eqn:F. inversion H; subst.
    rewrite (slots_to_db_slots_list _ l') by apply dict_get_set_same.
    rewrite (for_each_stable _ _ _ slot_to_db_slot_stable F).
    now rewrite dict_set_twice.
  - pose proof (slots_to_db_slots_other metadata S) as E. rewrite H in E.
    simpl in E. now subst metadata'.
Qed.

(** The pass keeps [None] apart from everything else. *)
Lemma slots_to_db_slots_none (metadata : pyval) :
  is_none (fst (BaseSetting.slots_to_db_slots metadata)) = is_none metadata.
Proof.
  destruct (slots_of metadata) as [l|] eqn:S.
  - destruct metadata as [| | | | | |d]; try discriminate. simpl in S.
    destruct (dict_get d "slots") as [[| | | | |l0|]|] eqn:G; try discriminate.
    rewrite (slots_to_db_slots_list _ _ G).
    now destruct (for_each _ l0).
  - now rewrite slots_to_db_slots_other.
Qed.


Lemma encode_filter_not_dict (f : pyval) :
  isinstance_dict (encode_filter f) = false.
Proof. unfold encode_filter. destruct (isinstance_dict f) eqn:E; auto. Qed.

(** The pass ends normally on metadata of the wire shape. *)
Lemma display_scope_step_returns (x : pyval) :
  isinstance_dict x = true -> snd (BaseSetting.display_scope_step x) = None.
Proof.
  destruct x; try discriminate. intros _. now rewrite display_scope_step_dict.
Qed.

Lemma slot_to_db_slot_returns (slot : pyval) :
  slot_shaped slot = true -> snd (BaseSetting.slot_to_db_slot slot) = None.
Proof.
  destruct slot as [| | | | | |d]; try discriminate. simpl.
  destruct (dict_get d "displayScopes") as [scopes|] eqn:G.
  - destruct scopes as [| | | | |l|]; try discriminate; intros Sh.
    + unfold BaseSetting.slot_to_db_slot. simpl. unfold dict_mem.
      now rewrite G.
    + rewrite (slot_to_db_slot_list _ _ G).
      rewrite for_each_ok_intro; [reflexivity|].
      simpl in Sh. rewrite forallb_forall in Sh. apply Forall_forall.
      intros x Hx. apply display_scope_step_returns. auto.
  - intros _. unfold BaseSetting.slot_to_db_slot. simpl. unfold dict_mem.
    now rewrite G.
Qed.

Lemma slots_to_db_slots_returns (metadata : pyval) :
  metadata_shaped metadata = true ->
  snd (BaseSetting.slots_to_db_slots metadata) = None.
Proof.
  destruct metadata as [| | | | | |d]; try discriminate; [reflexivity|].
  simpl. destruct (dict_get d "slots") as [slots|] eqn:G.
  - destruct slots as [| | | | |l|]; intros Sh;
      try (unfold BaseSetting.slots_to_db_slots; simpl; unfold dict_mem;
           now rewrite G).
    rewrite (slots_to_db_slots_list _ _ G).
    rewrite for_each_ok_intro; [reflexivity|].
    rewrite forallb_forall in Sh. apply Forall_forall.
    intros x Hx. apply slot_to_db_slot_returns. auto.
  - intros _. unfold BaseSetting.slots_to_db_slots. simpl. unfold dict_mem.
    now rewrite G.
Qed.

(** ** BaseSetting: serialisation *)

(** [to_json] touches [metadata] only, on every outcome. *)
Lemma to_json_frame (self : BaseSetting.t) :
  fst (BaseSetting.to_json self) =
  BaseSetting.set_metadata self
    (fst (BaseSetting.slots_to_db_slots (BaseSetting.metadata self))).
Proof.
  unfold BaseSetting.to_json.
  destruct (BaseSetting.slots_to_db_slots _) as [m' [e|]]; reflexivity.
Qed.

(** A call that returns has finished the pass over the slots, and the dict
    is built from the entity as the pass left it. *)
Lemma to_json_ok (self self' : BaseSetting.t) (out : pydict) :
  BaseSetting.to_json self = (self', Ok out) ->
  exists m',
    BaseSetting.slots_to_db_slots (BaseSetting.metadata self) = (m', None) /\
    self' = BaseSetting.set_metadata self m' /\
    forall k,
      dict_get out k =
      if negb (is_none (BaseSetting.default_value self))
         && String.eqb k "defaultValue"
      then Some (BaseSetting.default_value self)
      else if negb (is_none (BaseSetting.value self)) && String.eqb k "value"
      then Some (BaseSetting.value self)
      else if negb (is_none m') && String.eqb k "metadata"
      then Some m'
      else dict_get
             [ ("name", BaseSetting.name self);
               ("valueType", BaseSetting.value_type self);
               ("scope", PDict (SettingScope.to_json (BaseSetting.scope self)));
               ("settingType", BaseSetting.setting_type self);
               ("id", BaseSetting.id self) ] k.
Proof.
  unfold BaseSetting.to_json.
  destruct (BaseSetting.slots_to_db_slots _) as [m' [e|]] eqn:P;
    [discriminate|].
  intros H. injection H as <- <-. exists m'. repeat split.
  intros k. cbv zeta. rewrite !dict_get_cond_set. destruct self.
  cbn [BaseSetting.set_metadata BaseSetting.metadata BaseSetting.default_value
       BaseSetting.value BaseSetting.name BaseSetting.value_type
       BaseSetting.scope BaseSetting.setting_type BaseSetting.id].
  destruct (is_none m'); [reflexivity|].
  destruct (String.eqb_spec k "metadata") as [->|N]; [reflexivity|].
  simpl. apply String.eqb_neq in N. now rewrite N.
Qed.

Lemma to_json_returns (self : BaseSetting.t) :
  metadata_shaped (BaseSetting.metadata self) = true ->
  exists self' out, BaseSetting.to_json self = (self', Ok out).
Proof.
  intros Sh. apply slots_to_db_slots_returns in Sh.
  unfold BaseSetting.to_json.
  destruct (BaseSetting.slots_to_db_slots _) as [m' e]. simpl in Sh. subst e.
  eauto.
Qed.

(** Outside that shape the pass can raise, after it has encoded the filters
    it met before: here the second display scope is a number. *)
Lemma to_json_raises_on_malformed :
  BaseSetting.to_json
    (BaseSetting.mk PNone (PStr "panel") (PInt 1) (PStr "select")
       (SettingScope.mk (PStr "user") PNone PNone PNone PNone)
       (PDict [("slots",
                PList [PDict [("displayScopes",
                               PList [PDict [("filter", PDict [])]; PInt 1])]])])
       (PStr "user_settings") (Ref 0) NoRef NoRef PNone
       (mkSettings (Ref 0) NoRef NoRef))
  = (BaseSetting.mk PNone (PStr "panel") (PInt 1) (PStr "select")
       (SettingScope.mk (PStr "user") PNone PNone PNone PNone)
       (PDict [("slots",
                PList [PDict [("displayScopes",
                               PList [PDict [("filter", PStr "{}")]; PInt 1])]])])
       (PStr "user_settings") (Ref 0) NoRef NoRef PNone
       (mkSettings (Ref 0) NoRef NoRef),
     Raise TypeError).
Proof. reflexivity. Qed.

Lemma to_json_keys (self self' : BaseSetting.t) (out : pydict) (k : string) :
  BaseSetting.to_json self = (self', Ok out) ->
  dict_mem out k = true -> In k base_keys.
Proof.
  intros H. destruct (to_json_ok _ _ _ H) as (m' & _ & _ & G).
  unfold dict_mem. rewrite G. unfold base_keys. simpl.
  repeat match goal with
         | |- context [String.eqb k ?s] =>
             destruct (String.eqb_spec k s); [subst; simpl; tauto|]
         end.
  rewrite !andb_false_r. discriminate.
Qed.

(** C2. [BaseSetting.to_json] returns on metadata of the wire shape; every
    dict it returns maps [name], [valueType], [scope], [settingType] and [id]
    to the fields ([id] also when it is [None]), holds [metadata], [value]
    and [defaultValue] exactly when the field is not [None], and holds no
    other key; on the example of the specification it returns the dict of
    the specification. *)
Theorem C2_base_to_json_keys :
  (forall self : BaseSetting.t,
     metadata_shaped (BaseSetting.metadata self) = true ->
     exists self' out, BaseSetting.to_json self = (self', Ok out)) /\
  (forall (self self' : BaseSetting.t) (out : pydict),
     BaseSetting.to_json self = (self', Ok out) ->
     dict_get out "name" = Some (BaseSetting.name self) /\
     dict_get out "valueType" = Some (BaseSetting.value_type self) /\
     dict_get out "scope" =
       Some (PDict (SettingScope.to_json (BaseSetting.scope self))) /\
     dict_get out "settingType" = Some (BaseSetting.setting_type self) /\
     dict_get out "id" = Some (BaseSetting.id self) /\
     dict_get out "metadata" =
       (if is_none (BaseSetting.metadata self) then None
        else Some (BaseSetting.metadata self')) /\
     dict_get out "value" =
       (if is_none (BaseSetting.value self) then None
        else Some (BaseSetting.value self)) /\
     dict_get out "defaultValue" =
       (if is_none (BaseSetting.default_value self) then None
        else Some (BaseSetting.default_value self)) /\
     (forall k, dict_mem out k = true -> In k base_keys)) /\
  (exists x,
     BaseSetting.from_json
       [ ("name", PStr "flag1"); ("value", PBool true);
         ("valueType", PStr "boolean"); ("settingType", PStr "feature_flag");
         ("scope", PDict [("type", PStr "project"); ("id", PStr "p1")]) ]
       (Ref 0) NoRef NoRef = Ok x /\
     BaseSetting.to_json x =
     (x, Ok [ ("name", PStr "flag1"); ("valueType", PStr "boolean");
              ("scope", PDict [("type", PStr "project"); ("id", PStr "p1")]);
              ("settingType", PStr "feature_flag"); ("id", PNone);
              ("value", PBool true) ])).
Proof.
  split; [exact to_json_returns|]. split.
  - intros self self' out H.
    destruct (to_json_ok _ _ _ H) as (m' & P & -> & G).
    rewrite !G. simpl. rewrite !andb_false_r, !andb_true_r.
    assert (N : is_none m' = is_none (BaseSetting.metadata self)).
    { pose proof (slots_to_db_slots_none (BaseSetting.metadata self)) as E.
      now rewrite P in E. }
    destruct self; simpl in *. rewrite N.
    repeat split;
      try (now destruct (is_none default_value));
      try (now destruct (is_none value));
      try (now destruct (is_none metadata)).
    intros k. eapply to_json_keys. exact H.
  - eexists. split; reflexivity.
Qed.

Lemma C2_base_to_json_keys_witness :
  exists self' out,
    BaseSetting.to_json
      (BaseSetting.mk PNone (PStr "flag1") (PInt 7) (PStr "number")
         (SettingScope.mk (PStr "project") (PStr "p1") PNone PNone (PBool false))
         (PDict [("slots", PList [PDict [("displayScopes", PNone)]])])
         (PStr "feature_flag") (Ref 0) NoRef NoRef (PStr "s1")
         (mkSettings (Ref 0) NoRef NoRef))
    = (self', Ok out).
Proof.
  apply (proj1 C2_base_to_json_keys). reflexivity.
Defined.

(** ** Filters *)



(** ** The effect of [to_json] on the entity *)

Lemma set_metadata_same (self : BaseSetting.t) :
  BaseSetting.set_metadata self (BaseSetting.metadata self) = self.
Proof. now destruct self. Qed.

(** A second call finds nothing left to encode. *)
Lemma to_json_again (self self' : BaseSetting.t) (out : pydict) :
  BaseSetting.to_json self = (self', Ok out) ->
  BaseSetting.to_json self' = (self', Ok out).
Proof.
  unfold BaseSetting.to_json.
  destruct (BaseSetting.slots_to_db_slots (BaseSetting.metadata self))
    as [m' [e|]] eqn:P; [discriminate|].
  intros H. injection H as <- <-.
  destruct self. cbn [BaseSetting.set_metadata BaseSetting.metadata].
  now rewrite (slots_to_db_slots_stable _ _ P).
Qed.


(** ** Round trip *)

Lemma truthy_keep_truthy (v : pyval) : truthy (keep_truthy v) = truthy v.
Proof. unfold keep_truthy. now destruct (truthy v) eqn:E. Qed.

Lemma keep_truthy_truthy (v : pyval) : truthy v = true -> keep_truthy v = v.
Proof. unfold keep_truthy. now intros ->. Qed.

(** Reading back what [SettingScope.to_json] wrote loses the falsy fields. *)
Lemma scope_from_json_to_json (s : SettingScope.t) :
  SettingScope.from_json (PDict (SettingScope.to_json s))
  = Ok (scope_keep_truthy s).
Proof.
  destruct s as [ty i r po vi].
  unfold SettingScope.to_json, scope_keep_truthy, keep_truthy. simpl.
  destruct (truthy ty), (truthy i), (truthy r), (truthy po), (truthy vi);
    reflexivity.
Qed.

(** Writing again gives the same dict. *)
Lemma scope_to_json_keep_truthy (s : SettingScope.t) :
  SettingScope.to_json (scope_keep_truthy s) = SettingScope.to_json s.
Proof.
  destruct s as [ty i r po vi].
  unfold SettingScope.to_json, scope_keep_truthy. simpl.
  rewrite !truthy_keep_truthy.
  destruct (truthy ty) eqn:E1, (truthy i) eqn:E2, (truthy r) eqn:E3,
           (truthy po) eqn:E4, (truthy vi) eqn:E5;
    rewrite ?(keep_truthy_truthy _ E1), ?(keep_truthy_truthy _ E2),
            ?(keep_truthy_truthy _ E3), ?(keep_truthy_truthy _ E4),
            ?(keep_truthy_truthy _ E5);
    reflexivity.
Qed.

Lemma from_json_to_json
    (x x' : BaseSetting.t) (J : pydict) (c p o : extref) :
  BaseSetting.value x <> PNone \/ BaseSetting.default_value x <> PNone ->
  BaseSetting.to_json x = (x', Ok J) ->
  BaseSetting.from_json J c p o
  = Ok (BaseSetting.mk
          (BaseSetting.default_value x') (BaseSetting.name x')
          (BaseSetting.value x') (BaseSetting.value_type x')
          (scope_keep_truthy (BaseSetting.scope x'))
          (BaseSetting.metadata x') (BaseSetting.setting_type x')
          c p o (BaseSetting.id x') (mkSettings c p o)).
Proof.
  intros V H. destruct (to_json_ok _ _ _ H) as (m' & P & -> & G).
  unfold BaseSetting.from_json, get_or_none. rewrite !G. simpl.
  rewrite !andb_false_r, !andb_true_r.
  rewrite scope_from_json_to_json.
  destruct x as [dv n v vt sc md st c0 p0 o0 i rp]. simpl in *.
  assert (Edv : match (if negb (is_none dv) then Some dv else None) with
                | Some a => a | None => PNone end = dv) by now destruct dv.
  assert (Ev : match (if negb (is_none v) then Some v else None) with
               | Some a => a | None => PNone end = v) by now destruct v.
  assert (Em : match (if negb (is_none m') then Some m' else None) with
               | Some a => a | None => PNone end = m') by now destruct m'.
  rewrite Edv, Ev, Em. now apply init_accepts.
Qed.

Lemma init_ok_inv
    (default_value value name value_type : pyval) (scope : SettingScope.t)
    (metadata setting_type id : pyval) (client_api project org : extref)
    (x : BaseSetting.t) :
  BaseSetting.init default_value value name value_type scope metadata
    setting_type id client_api project org = Ok x ->
  (value <> PNone \/ default_value <> PNone) /\
  x = BaseSetting.mk default_value name value value_type scope metadata
        setting_type client_api project org id
        (mkSettings client_api project org).
Proof.
  unfold BaseSetting.init.
  destruct value, default_value; simpl; intros H; inversion H;
    split; auto; (left; discriminate) || (right; discriminate).
Qed.

(** C1. Let [x] be built by the constructor and let [to_json] return [J] on
    it.  Then [from_json] accepts [J], [to_json] on the entity read back
    returns [J] again and leaves that entity as it is, and the entity read
    back has the fields of [x] (its metadata as [to_json] left it) except in
    the scope, where each field that was not truthy is now [None]: a
    [visible] or [prevent_override] that was [False] is not recovered. *)
Theorem C1_to_json_round_trip
    (default_value value name value_type : pyval) (scope : SettingScope.t)
    (metadata setting_type id : pyval) (client_api project org : extref)
    (client_api' project' org' : extref)
    (x x' : BaseSetting.t) (J : pydict) :
  BaseSetting.init default_value value name value_type scope metadata
    setting_type id client_api project org = Ok x ->
  BaseSetting.to_json x = (x', Ok J) ->
  exists y,
    BaseSetting.from_json J client_api' project' org' = Ok y /\
    BaseSetting.to_json y = (y, Ok J) /\
    BaseSetting.default_value y = default_value /\
    BaseSetting.name y = name /\
    BaseSetting.value y = value /\
    BaseSetting.value_type y = value_type /\
    BaseSetting.metadata y = BaseSetting.metadata x' /\
    BaseSetting.setting_type y = setting_type /\
    BaseSetting.id y = id /\
    BaseSetting.scope y = scope_keep_truthy scope /\
    (SettingScope.visible scope = PBool false ->
     SettingScope.visible (BaseSetting.scope y) = PNone) /\
    (SettingScope.prevent_override scope = PBool false ->
     SettingScope.prevent_override (BaseSetting.scope y) = PNone).
Proof.
  intros I H. apply init_ok_inv in I. destruct I as [V ->].
  eexists. split.
  - apply from_json_to_json with (x := BaseSetting.mk default_value name value
      value_type scope metadata setting_type client_api project org id
      (mkSettings client_api project org)); [exact V | exact H].
  - revert H. unfold BaseSetting.to_json. simpl.
    destruct (BaseSetting.slots_to_db_slots metadata) as [m' [e|]] eqn:P;
      [discriminate|].
    intros H. injection H as <- <-. simpl.
    rewrite (slots_to_db_slots_stable _ _ P), scope_to_json_keep_truthy.
    repeat split.
    + now intros ->.
    + now intros ->.
Qed.

Lemma C1_to_json_round_trip_witness :
  exists y,
    BaseSetting.from_json
      [ ("name", PStr "flag1"); ("valueType", PStr "boolean");
        ("scope", PDict [("type", PStr "project"); ("id", PStr "p1")]);
        ("settingType", PStr "feature_flag"); ("id", PNone);
        ("value", PBool true) ] (Ref 1) NoRef NoRef = Ok y /\
    SettingScope.visible (BaseSetting.scope y) = PNone.
Proof.
  destruct (C1_to_json_round_trip
              PNone (PBool true) (PStr "flag1") (PStr "boolean")
              (SettingScope.mk (PStr "project") (PStr "p1") PNone PNone (PBool false))
              PNone (PStr "feature_flag") PNone (Ref 0) NoRef NoRef
              (Ref 1) NoRef NoRef _ _ _ eq_refl eq_refl)
    as (y & Hy & _ & _ & _ & _ & _ & _ & _ & _ & _ & Hvis & _).
  exists y. split; [exact Hy | exact (Hvis eq_refl)].
Defined.

(** ** Setting *)

(** [Setting.to_json] fails exactly as the base serialisation does. *)
Lemma setting_to_json_raises (self : Setting.t) (b' : BaseSetting.t) (e : exn) :
  BaseSetting.to_json (Setting.base self) = (b', Raise e) ->
  Setting.to_json self = (Setting.set_base self b', Raise e).
Proof. intros H. unfold Setting.to_json. now rewrite H. Qed.

(** On a returning call, the value under each key. *)
Lemma setting_to_json_ok
    (self : Setting.t) (b' : BaseSetting.t) (bj : pydict) :
  BaseSetting.to_json (Setting.base self) = (b', Ok bj) ->
  exists sj,
    Setting.to_json self = (Setting.set_base self b', Ok sj) /\
    forall k,
      dict_get sj k =
      if negb (is_none (BaseSetting.id b')) && String.eqb k "id"
      then Some (BaseSetting.id b')
      else if negb (is_none (Setting.sub_section_name self))
              && String.eqb k "subSectionName"
      then Some (Setting.sub_section_name self)
      else if negb (is_none (Setting.hint self)) && String.eqb k "hint"
      then Some (Setting.hint self)
      else if negb (is_none (Setting.section_name self))
              && String.eqb k "sectionName"
      then Some (Setting.section_name self)
      else if negb (is_none (Setting.icon self)) && String.eqb k "icon"
      then Some (Setting.icon self)
      else if negb (is_none (Setting.inputs self)) && String.eqb k "inputs"
      then Some (Setting.inputs self)
      else if negb (is_none (Setting.description self))
              && String.eqb k "description"
      then Some (Setting.description self)
      else dict_get bj k.
Proof.
  intros H. unfold Setting.to_json. rewrite H. eexists. split; [reflexivity|].
  intros k. cbv zeta. rewrite !dict_get_cond_set. now destruct self.
Qed.

Ltac decide_key k :=
  repeat match goal with
         | |- context [String.eqb k ?s] =>
             destruct (String.eqb_spec k s); [subst; simpl; tauto|]
         end.

(** C8. When the base serialisation returns a dict, [Setting.to_json]
    returns one that maps every key of the base dict to the same value (the
    second store of [id] writes the value already there), maps each of
    [description], [inputs], [icon], [sectionName], [hint] and
    [subSectionName] to its field exactly when the field is not [None], and
    holds no further key; the entity is left as the base call left it. *)
Theorem C8_setting_to_json_superset
    (self : Setting.t) (b' : BaseSetting.t) (bj : pydict) :
  BaseSetting.to_json (Setting.base self) = (b', Ok bj) ->
  exists sj,
    Setting.to_json self = (Setting.set_base self b', Ok sj) /\
    (forall k v, dict_get bj k = Some v -> dict_get sj k = Some v) /\
    dict_get sj "description" =
      (if is_none (Setting.description self) then None
       else Some (Setting.description self)) /\
    dict_get sj "inputs" =
      (if is_none (Setting.inputs self) then None
       else Some (Setting.inputs self)) /\
    dict_get sj "icon" =
      (if is_none (Setting.icon self) then None
       else Some (Setting.icon self)) /\
    dict_get sj "sectionName" =
      (if is_none (Setting.section_name self) then None
       else Some (Setting.section_name self)) /\
    dict_get sj "hint" =
      (if is_none (Setting.hint self) then None
       else Some (Setting.hint self)) /\
    dict_get sj "subSectionName" =
      (if is_none (Setting.sub_section_name self) then None
       else Some (Setting.sub_section_name self)) /\
    (forall k, dict_mem sj k = true ->
               dict_mem bj k = true \/ In k setting_keys).
Proof.
  intros H. destruct (setting_to_json_ok _ _ _ H) as (sj & Hs & G).
  exists sj. split; [exact Hs|].
  destruct (to_json_ok _ _ _ H) as (m' & P & E & Gb).
  assert (Hid : dict_get bj "id" = Some (BaseSetting.id b')).
  { rewrite Gb. simpl. rewrite !andb_false_r. subst b'.
    now destruct (Setting.base self). }
  assert (Hnone : forall k, In k setting_keys -> dict_get bj k = None).
  { intros k Hk. rewrite Gb. unfold setting_keys in Hk. simpl in Hk.
    repeat (destruct Hk as [<-|Hk]; [simpl; now rewrite !andb_false_r|]).
    contradiction. }
  split.
  { intros k v Hk. rewrite G.
    assert (Hin : In k base_keys).
    { eapply to_json_keys; [exact H|]. unfold dict_mem. now rewrite Hk. }
    unfold base_keys in Hin. simpl in Hin.
    repeat (destruct Hin as [<-|Hin];
            [simpl; rewrite ?andb_false_r, ?andb_true_r; try exact Hk|]).
    - rewrite Hid in Hk. injection Hk as <-.
      now destruct (is_none (BaseSetting.id b')).
    - contradiction. }
  repeat (split;
          [rewrite G; simpl; rewrite ?andb_false_r, ?andb_true_r;
           rewrite Hnone by (unfold setting_keys; simpl; tauto);
           match goal with |- context [is_none ?v] => now destruct (is_none v) end|]).
  intros k. unfold dict_mem at 1. rewrite G. unfold setting_keys. simpl.
  destruct (String.eqb_spec k "id") as [->|_].
  { intros _. left. unfold dict_mem. now rewrite Hid. }
  rewrite andb_false_r.
  decide_key k. rewrite !andb_false_r. unfold dict_mem. tauto.
Qed.

Lemma C8_setting_to_json_superset_witness :
  exists sj,
    Setting.to_json
      (Setting.mk
         (BaseSetting.mk PNone (PStr "theme") (PStr "dark") (PStr "select")
            (SettingScope.mk (PStr "user") (PStr "u1") PNone PNone (PBool true))
            PNone user_settings (Ref 0) NoRef NoRef (PStr "s1")
            (mkSettings (Ref 0) NoRef NoRef))
         (PStr "Colour theme") PNone PNone (PStr "Studio") PNone PNone)
    = (Setting.mk
         (BaseSetting.mk PNone (PStr "theme") (PStr "dark") (PStr "select")
            (SettingScope.mk (PStr "user") (PStr "u1") PNone PNone (PBool true))
            PNone user_settings (Ref 0) NoRef NoRef (PStr "s1")
            (mkSettings (Ref 0) NoRef NoRef))
         (PStr "Colour theme") PNone PNone (PStr "Studio") PNone PNone,
       Ok sj) /\
    dict_get sj "id" = Some (PStr "s1") /\
    dict_get sj "description" = Some (PStr "Colour theme") /\
    dict_get sj "icon" = None.
Proof.
  destruct (C8_setting_to_json_superset
              (Setting.mk
                 (BaseSetting.mk PNone (PStr "theme") (PStr "dark") (PStr "select")
                    (SettingScope.mk (PStr "user") (PStr "u1") PNone PNone (PBool true))
                    PNone user_settings (Ref 0) NoRef NoRef (PStr "s1")
                    (mkSettings (Ref 0) NoRef NoRef))
                 (PStr "Colour theme") PNone PNone (PStr "Studio") PNone PNone)
              _ _ eq_refl)
    as (sj & Hs & Hsup & Hd & _ & Hi & _).
  exists sj. split; [exact Hs|]. split; [|split; [exact Hd | exact Hi]].
  apply Hsup. reflexivity.
Defined.

(** The constructor of [Setting] fixes [setting_type]. *)
Lemma setting_init_type
    (value name value_type : pyval) (scope : SettingScope.t)
    (section_name default_value inputs metadata description icon id
       sub_section_name hint : pyval)
    (client_api project org : extref) (s : Setting.t) :
  Setting.init value name value_type scope section_name default_value inputs
    metadata description icon id sub_section_name hint client_api project org
  = Ok s ->
  BaseSetting.setting_type (Setting.base s) = user_settings.
Proof.
  unfold Setting.init.
  destruct (BaseSetting.init _ _ _ _ _ _ _ _ _ _ _) as [b|e] eqn:I;
    [|discriminate].
  intros H. injection H as <-. apply init_ok_inv in I. destruct I as [_ ->].
  reflexivity.
Qed.

Lemma setting_from_json_type
    (j : pydict) (c p o : extref) (s : Setting.t) :
  Setting.from_json j c p o = Ok s ->
  BaseSetting.setting_type (Setting.base s) = user_settings.
Proof.
  unfold Setting.from_json.
  destruct (SettingScope.from_json _) as [sc|e]; [|discriminate].
  apply setting_init_type.
Qed.

(** What [to_json] does with a [setting_type] fixed to [user_settings]. *)
Lemma setting_to_json_type (s : Setting.t) :
  BaseSetting.setting_type (Setting.base s) = user_settings ->
  (forall s' out,
     Setting.to_json s = (s', Ok out) ->
     dict_get out "settingType" = Some user_settings /\
     BaseSetting.setting_type (Setting.base s') = user_settings) /\
  (metadata_shaped (BaseSetting.metadata (Setting.base s)) = true ->
   exists s' out, Setting.to_json s = (s', Ok out)).
Proof.
  intros T. split.
  - intros s' out H.
    destruct (BaseSetting.to_json (Setting.base s)) as [b' [bj|e]] eqn:B.
    + destruct (setting_to_json_ok _ _ _ B) as (sj & Hs & G).
      rewrite Hs in H. injection H as <- <-.
      destruct (to_json_ok _ _ _ B) as (m' & _ & -> & Gb).
      split.
      * rewrite G. simpl. rewrite !andb_false_r. rewrite Gb. simpl.
        rewrite !andb_false_r. now rewrite T.
      * destruct s as [b d i ic sn h ssn]. destruct b. exact T.
    + rewrite (setting_to_json_raises _ _ _ B) in H. discriminate.
  - intros Sh. destruct (to_json_returns _ Sh) as (b' & bj & B).
    destruct (setting_to_json_ok _ _ _ B) as (sj & Hs & _). eauto.
Qed.

(** C7. A [Setting] returned by its constructor or by [Setting.from_json],
    whatever [settingType] the JSON object holds, has [setting_type] equal
    to [user_settings]; every dict its [to_json] returns maps [settingType]
    to [user_settings], the entity keeping that [setting_type]; and
    [to_json] returns on metadata of the wire shape. *)
Theorem C7_setting_type_fixed :
  (forall (value name value_type : pyval) (scope : SettingScope.t)
          (section_name default_value inputs metadata description icon id
             sub_section_name hint : pyval)
          (client_api project org : extref) (s : Setting.t),
     Setting.init value name value_type scope section_name default_value
       inputs metadata description icon id sub_section_name hint
       client_api project org = Ok s ->
     BaseSetting.setting_type (Setting.base s) = user_settings /\
     (forall s' out,
        Setting.to_json s = (s', Ok out) ->
        dict_get out "settingType" = Some user_settings /\
        BaseSetting.setting_type (Setting.base s') = user_settings) /\
     (metadata_shaped (BaseSetting.metadata (Setting.base s)) = true ->
      exists s' out, Setting.to_json s = (s', Ok out))) /\
  (forall (j : pydict) (c p o : extref) (s : Setting.t),
     Setting.from_json j c p o = Ok s ->
     BaseSetting.setting_type (Setting.base s) = user_settings /\
     (forall s' out,
        Setting.to_json s = (s', Ok out) ->
        dict_get out "settingType" = Some user_settings /\
        BaseSetting.setting_type (Setting.base s') = user_settings) /\
     (metadata_shaped (BaseSetting.metadata (Setting.base s)) = true ->
      exists s' out, Setting.to_json s = (s', Ok out))).
Proof.
  split.
  - intros. split; [eapply setting_init_type; eauto|].
    apply setting_to_json_type. eapply setting_init_type; eauto.
  - intros. split; [eapply setting_from_json_type; eauto|].
    apply setting_to_json_type. eapply setting_from_json_type; eauto.
Qed.

Lemma C7_setting_type_fixed_witness :
  exists s,
    Setting.from_json
      [ ("name", PStr "theme"); ("value", PStr "dark");
        ("settingType", PStr "feature_flag"); ("scope", PDict []) ]
      (Ref 0) NoRef NoRef = Ok s /\
    BaseSetting.setting_type (Setting.base s) = user_settings /\
    exists s' out,
      Setting.to_json s = (s', Ok out) /\
      dict_get out "settingType" = Some user_settings.
Proof.
  eexists. split; [reflexivity|].
  destruct (proj2 C7_setting_type_fixed
              [ ("name", PStr "theme"); ("value", PStr "dark");
                ("settingType", PStr "feature_flag"); ("scope", PDict []) ]
              (Ref 0) NoRef NoRef _ eq_refl) as (Ht & Hj & Hr).
  split; [exact Ht|].
  destruct (Hr eq_refl) as (s' & out & Hs). exists s', out.
  split; [exact Hs | exact (proj1 (Hj _ _ Hs))].
Defined.

(** ** UserSetting *)

Lemma warn_outcome (action : filter_action) (w : warning) (st : warnings_state) :
  fst (warn action w st) =
    (if fatal action st then Raise (RaisedWarning (message w)) else Ok tt) /\
  shown (snd (warn action w st)) =
    (if shows action st then (shown st ++ [w])%list else shown st).
Proof.
  unfold warn, fatal, shows.
  destruct (registry_key st); simpl; [auto|].
  destruct action; simpl; auto.
  - now destruct (registry_altkey st).
  - now destruct (onceregistry_key st).
Qed.

Lemma warn_registry (action : filter_action) (w : warning) (st : warnings_state) :
  registry_key (snd (warn action w st)) =
  registry_key st ||
  match action with
  | action_default | action_module | action_once => true
  | _ => false
  end.
Proof.
  unfold warn. destruct (registry_key st) eqn:E; simpl; [exact E|].
  destruct action; simpl; auto.
  - now destruct (registry_altkey st).
  - now destruct (onceregistry_key st).
Qed.

Lemma warn_dropped (action : filter_action) (w : warning) (st : warnings_state) :
  registry_key st = true -> warn action w st = (Ok tt, st).
Proof. unfold warn. now intros ->. Qed.

Section Constructions.

Variables (default_value value name value_type : pyval)
          (scope : SettingScope.t)
          (section_name inputs metadata description icon id sub_section_name
             hint : pyval)
          (client_api project org : extref)
          (action : filter_action).

Let construct : warnings_state -> result UserSetting.t * warnings_state :=
  UserSetting.init default_value value name value_type scope section_name
    inputs metadata description icon id sub_section_name hint
    client_api project org action.

Lemma construct_warns (st : warnings_state) :
  snd (construct st) = snd (warn action deprecation st).
Proof.
  unfold construct, UserSetting.init. fold deprecation.
  now destruct (warn action deprecation st) as [[u|e] st'].
Qed.

Lemma construct_result (st : warnings_state) :
  fst (construct st) =
  if fatal action st then Raise (RaisedWarning (message deprecation))
  else Setting.init value name value_type scope section_name default_value
         inputs metadata description icon id sub_section_name hint
         client_api project org.
Proof.
  unfold construct, UserSetting.init. fold deprecation.
  pose proof (proj1 (warn_outcome action deprecation st)) as F.
  destruct (warn action deprecation st) as [[u|e] st']; simpl in *;
    destruct (fatal action st); congruence.
Qed.

Lemma constructions_dropped (n : nat) (st : warnings_state) :
  registry_key st = true -> after_constructions n construct st = st.
Proof.
  intros K. induction n as [|n IH]; simpl; [reflexivity|].
  rewrite construct_warns, warn_dropped by exact K. exact IH.
Qed.

Lemma constructions_always (n : nat) (st : warnings_state) :
  action = action_always -> registry_key st = false ->
  shown (after_constructions n construct st)
  = (shown st ++ repeat deprecation n)%list.
Proof.
  intros A. revert st. induction n as [|n IH]; intros st K; simpl.
  - now rewrite app_nil_r.
  - rewrite IH.
    + rewrite construct_warns.
      rewrite (proj2 (warn_outcome action deprecation st)).
      unfold shows. rewrite K, A. simpl. now rewrite <- app_assoc.
    + rewrite construct_warns, warn_registry, K, A. reflexivity.
Qed.

Lemma constructions_first_only (n : nat) (st : warnings_state) :
  action = action_default \/ action = action_module \/ action = action_once ->
  registry_key st = false ->
  shown (after_constructions (S n) construct st)
  = (if shows action st then (shown st ++ [deprecation])%list else shown st).
Proof.
  intros A K. simpl. rewrite constructions_dropped.
  - rewrite construct_warns. apply warn_outcome.
  - rewrite construct_warns, warn_registry, K.
    destruct A as [->|[->| ->]]; reflexivity.
Qed.

Lemma constructions_ignored (n : nat) (st : warnings_state) :
  action = action_ignore ->
  after_constructions n construct st = st.
Proof.
  intros A. induction n as [|n IH]; simpl; [reflexivity|].
  rewrite construct_warns. unfold warn. rewrite A.
  destruct (registry_key st); simpl; exact IH.
Qed.

End Constructions.

(** C9, as stated, fails: with the action [ignore], which the default
    filters of Python give for a [DeprecationWarning] raised outside
    [__main__], a construction returns the setting and nothing is shown to
    the caller; with the action [error] the construction raises the warning
    and the constructor of [Setting] does not run. *)
Lemma C9_warning_unseen_or_fatal :
  UserSetting.init PNone (PStr "dark") (PStr "theme") (PStr "select")
    (SettingScope.mk (PStr "user") PNone PNone PNone PNone)
    (PStr "Studio") PNone PNone PNone PNone PNone PNone PNone
    (Ref 0) NoRef NoRef action_ignore (mkWarnings false false false [])
  = (Ok (Setting.mk
           (BaseSetting.mk PNone (PStr "theme") (PStr "dark") (PStr "select")
              (SettingScope.mk (PStr "user") PNone PNone PNone PNone)
              PNone user_settings (Ref 0) NoRef NoRef PNone
              (mkSettings (Ref 0) NoRef NoRef))
           PNone PNone PNone (PStr "Studio") PNone PNone),
     mkWarnings false false false [])
  /\
  UserSetting.init PNone (PStr "dark") (PStr "theme") (PStr "select")
    (SettingScope.mk (PStr "user") PNone PNone PNone PNone)
    (PStr "Studio") PNone PNone PNone PNone PNone PNone PNone
    (Ref 0) NoRef NoRef action_error (mkWarnings false false false [])
  = (Raise (RaisedWarning
              "UserSetting will be Deprecation from version 1.62 use Setting"),
     mkWarnings false false false []).
Proof. split; reflexivity. Qed.

(** C9, amended.  The constructor of [UserSetting] calls [warnings.warn]
    with its deprecation warning before the constructor of [Setting].  The
    call raises the warning exactly when its registry entry is unset and the
    action of the filters is [error]; the constructor of [Setting] is then
    not run.  In every other case the result is the one the constructor of
    [Setting] gives for the same field values.  The warning is shown exactly
    when the registry entry is unset and the action is [always] or
    [default], [module] with the module entry unset, or [once] with the
    once-registry entry unset.  Over constructions in a row, starting with
    the registry entry unset: under [always] each one is shown; under
    [default], [module] and [once] at most the first; under [ignore] none.
    A call of [__init__] on a [UserSetting] runs the method of the class
    itself, a call of [to_json] or [from_json] the method of [Setting]. *)
Theorem C9_user_setting_warns_then_delegates
    (default_value value name value_type : pyval) (scope : SettingScope.t)
    (section_name inputs metadata description icon id sub_section_name
       hint : pyval)
    (client_api project org : extref)
    (action : filter_action) (st : warnings_state) :
  let construct :=
    UserSetting.init default_value value name value_type scope section_name
      inputs metadata description icon id sub_section_name hint
      client_api project org action in
  fst (construct st) =
    (if fatal action st then Raise (RaisedWarning (message deprecation))
     else Setting.init value name value_type scope section_name default_value
            inputs metadata description icon id sub_section_name hint
            client_api project org) /\
  shown (snd (construct st)) =
    (if shows action st then (shown st ++ [deprecation])%list else shown st) /\
  (forall n,
     action = action_always -> registry_key st = false ->
     shown (after_constructions n construct st)
     = (shown st ++ repeat deprecation n)%list) /\
  (forall n,
     action = action_default \/ action = action_module \/ action = action_once ->
     registry_key st = false ->
     shown (after_constructions (S n) construct st)
     = (if shows action st then (shown st ++ [deprecation])%list
        else shown st)) /\
  (forall n,
     action = action_ignore ->
     shown (after_constructions n construct st) = shown st) /\
  resolve UserSetting_class init_method = Some UserSetting_class /\
  resolve UserSetting_class to_json_method = Some Setting_class /\
  resolve UserSetting_class from_json_method = Some Setting_class /\
  (forall u : UserSetting.t, UserSetting.to_json u = Setting.to_json u) /\
  (forall (j : pydict) (c p o : extref),
     UserSetting.from_json j c p o = Setting.from_json j c p o).
Proof.
  intros construct.
  split; [apply construct_result|].
  split; [unfold construct; rewrite construct_warns; apply warn_outcome|].
  split; [intros; now apply constructions_always|].
  split; [intros; now apply constructions_first_only|].
  split; [intros n A; unfold construct; now rewrite constructions_ignored|].
  repeat split.
Qed.
(** ** The store: what [to_json] writes *)

Module InPlaceFacts.
Import InPlace.






(** *** The relation [filters_encoded] *)










Lemma encoded_list (h h' : store) (a : addr) (l : list hval) :
  filters_encoded h h' -> h a = OList l -> h' a = OList l.
Proof.
  intros R Ha. specialize (R a). rewrite Ha in R.
  destruct (h' a); [now subst|contradiction].
Qed.

(** *** One display scope *)



(** *** Loops *)

Section Loops.

Variable body : mutation.

Hypothesis body_encodes :
  forall x h h' e, body x h = (h', e) -> filters_encoded h h'.

Hypothesis body_settles :
  forall x h h' h'',
    body x h = (h', None) -> filters_encoded h' h'' -> body x h'' = (h'', None).




End Loops.

(** *** One slot, and all of them *)





(** *** After a pass that returned *)



(** *** The text written *)









(** *** Exceptions of the pass *)

Lemma reify_raises (depth : nat) (path : list addr) (h : store) (v : hval)
    (e : exn) :
  reify depth path h v = Raise e -> e = ValueError \/ e = RecursionError.
Proof.
  revert path v. induction depth as [|depth IH]; intros path v;
    destruct v as [| | | | |a]; simpl; try discriminate;
    destruct (existsb (Nat.eqb a) path);
    try (intros H; injection H as <-; auto).
  destruct (h a) as [l|d].
  - assert (L : forall l0,
               (fix items (l : list hval) : result (list pyval) :=
                  match l with
                  | [] => Ok []
                  | x :: r =>
                      match reify depth (a :: path) h x with
                      | Raise e => Raise e
                      | Ok t =>
                          match items r with
                          | Raise e => Raise e
                          | Ok ts => Ok (t :: ts)
                          end
                      end
                  end) l0 = Raise e -> e = ValueError \/ e = RecursionError).
    { induction l0 as [|x r IHl]; [intros H; discriminate H|].
      destruct (reify depth (a :: path) h x) as [t|e1] eqn:Rx.
      - match goal with
        | |- match ?m with _ => _ end = _ -> _ => destruct m eqn:M
        end; intros H; [discriminate H|].
        injection H as ->. apply IHl. reflexivity.
      - intros H. injection H as ->. eapply IH; eauto. }
    match goal with
    | |- match ?m with _ => _ end = _ -> _ => destruct m eqn:M
    end; intros H; [discriminate H|].
    injection H as ->. apply (L l). exact M.
  - assert (L : forall d0,
               (fix members (d : hdict) : result pydict :=
                  match d with
                  | [] => Ok []
                  | (k, x) :: r =>
                      match reify depth (a :: path) h x with
                      | Raise e => Raise e
                      | Ok t =>
                          match members r with
                          | Raise e => Raise e
                          | Ok ts => Ok ((k, t) :: ts)
                          end
                      end
                  end) d0 = Raise e -> e = ValueError \/ e = RecursionError).
    { induction d0 as [|[k x] r IHl]; [intros H; discriminate H|].
      destruct (reify depth (a :: path) h x) as [t|e1] eqn:Rx.
      - match goal with
        | |- match ?m with _ => _ end = _ -> _ => destruct m eqn:M
        end; intros H; [discriminate H|].
        injection H as ->. apply IHl. reflexivity.
      - intros H. injection H as ->. eapply IH; eauto. }
    match goal with
    | |- match ?m with _ => _ end = _ -> _ => destruct m eqn:M
    end; intros H; [discriminate H|].
    injection H as ->. apply (L d). exact M.
Qed.

Lemma step_raises (limit : nat) (ds : hval) (h h' : store) (e : exn) :
  display_scope_step limit ds h = (h', Some e) ->
  e = TypeError \/ e = ValueError \/ e = RecursionError.
Proof.
  unfold display_scope_step.
  destruct ds as [| | | |s|a]; cbn [py_contains py_getitem py_setitem];
    try (intros H; injection H as _ <-; auto).
  - destruct (str_contains "filter" s); intros H;
      [injection H as _ <-; auto | discriminate H].
  - destruct (h a) as [l|d].
    + destruct (existsb _ l); intros H;
        [injection H as _ <-; auto | discriminate H].
    + destruct (assoc_get d "filter") as [f|]; [|intros H; discriminate H].
      destruct (isinstance_dict h f); [|intros H; discriminate H].
      unfold dumps. destruct (reify limit [] h f) as [t|e0] eqn:Rf;
        intros H; [discriminate H|].
      injection H as _ <-. right. eapply reify_raises; eauto.
Qed.

Lemma for_each_raises_in (body : mutation) (l : list hval) (h h' : store)
    (e : exn) :
  for_each body l h = (h', Some e) ->
  exists x h1 h2, In x l /\ body x h1 = (h2, Some e).
Proof.
  revert h. induction l as [|x r IH]; simpl; intros h H; [discriminate|].
  destruct (body x h) as [h1 [e1|]] eqn:B.
  - injection H as _ <-. eauto 6.
  - destruct (IH _ H) as (y & ha & hb & I & By). eauto 7.
Qed.

Lemma slot_raises (limit : nat) (slot : hval) (h h' : store) (e : exn) :
  slot_to_db_slot limit slot h = (h', Some e) ->
  e = TypeError \/ e = ValueError \/ e = RecursionError.
Proof.
  unfold slot_to_db_slot.
  destruct slot as [| | | |s|a]; cbn [py_contains py_getitem];
    try (intros H; injection H as _ <-; auto).
  - destruct (str_contains "displayScopes" s); intros H;
      [injection H as _ <-; auto | discriminate H].
  - destruct (h a) as [l|d].
    + destruct (existsb _ l); intros H;
        [injection H as _ <-; auto | discriminate H].
    + destruct (assoc_get d "displayScopes") as [scopes|];
        [|intros H; discriminate H].
      destruct (truthy h scopes); [|intros H; discriminate H].
      destruct (py_iter scopes h) as [items|e0] eqn:I.
      * intros H. apply for_each_raises_in in H.
        destruct H as (x & h1 & h2 & _ & B). eapply step_raises; eauto.
      * intros H. injection H as _ <-. left.
        destruct scopes as [| | | | |b]; simpl in I; try congruence.
        destruct (h b); discriminate I.
Qed.

Lemma slots_raises (limit : nat) (metadata : hval) (h h' : store) (e : exn) :
  slots_to_db_slots limit metadata h = (h', Some e) ->
  e = TypeError \/ e = ValueError \/ e = RecursionError.
Proof.
  unfold slots_to_db_slots.
  destruct metadata as [| | | |s|a]; cbn [is_none negb py_contains py_getitem];
    try discriminate; try (intros H; injection H as _ <-; auto).
  - destruct (str_contains "slots" s); intros H;
      [injection H as _ <-; auto | discriminate H].
  - destruct (h a) as [l|d].
    + destruct (existsb _ l); intros H;
        [injection H as _ <-; auto | discriminate H].
    + destruct (assoc_get d "slots") as [[| | | | |b]|]; try discriminate.
      destruct (h b) as [l|]; [|discriminate].
      intros H. apply for_each_raises_in in H.
      destruct H as (x & h1 & h2 & _ & B). eapply slot_raises; eauto.
Qed.

End InPlaceFacts.




(** * Further properties *)

(** ** Outcomes of deserialisation *)

Lemma base_from_json_unfold (j : pydict) (c p o : extref) :
  BaseSetting.from_json j c p o =
  match get_or_none j "scope" with
  | PDict sd =>
      if is_none (get_or_none j "value") && is_none (get_or_none j "defaultValue")
      then Raise must_provide
      else Ok (BaseSetting.mk (get_or_none j "defaultValue") (get_or_none j "name")
                 (get_or_none j "value") (get_or_none j "valueType")
                 (SettingScope.mk (get_or_none sd "type") (get_or_none sd "id")
                    (get_or_none sd "role") (get_or_none sd "preventOverride")
                    (get_or_none sd "visible"))
                 (get_or_none j "metadata") (get_or_none j "settingType")
                 c p o (get_or_none j "id") (mkSettings c p o))
  | _ => Raise AttributeError
  end.
Proof.
  unfold BaseSetting.from_json, BaseSetting.init.
  destruct (get_or_none j "scope"); reflexivity.
Qed.

Lemma setting_from_json_unfold (j : pydict) (c p o : extref) :
  Setting.from_json j c p o =
  match get_or_none j "scope" with
  | PDict sd =>
      if is_none (get_or_none j "value") && is_none (get_or_none j "defaultValue")
      then Raise must_provide
      else Ok (Setting.mk
                 (BaseSetting.mk (get_or_none j "defaultValue") (get_or_none j "name")
                    (get_or_none j "value") (get_or_none j "valueType")
                    (SettingScope.mk (get_or_none sd "type") (get_or_none sd "id")
                       (get_or_none sd "role") (get_or_none sd "preventOverride")
                       (get_or_none sd "visible"))
                    (get_or_none j "metadata") user_settings
                    c p o (get_or_none j "id") (mkSettings c p o))
                 (get_or_none j "description") (get_or_none j "inputs")
                 (get_or_none j "icon") (get_or_none j "sectionName")
                 (get_or_none j "hint") (get_or_none j "subSectionName"))
  | _ => Raise AttributeError
  end.
Proof.
  unfold Setting.from_json, Setting.init, BaseSetting.init.
  destruct (get_or_none j "scope"); try reflexivity.
  simpl. now destruct (is_none (get_or_none j "value") &&
                       is_none (get_or_none j "defaultValue")).
Qed.

Lemma is_none_true (v : pyval) : is_none v = true <-> v = PNone.
Proof. destruct v; simpl; split; congruence. Qed.

Lemma both_none (v w : pyval) :
  is_none v && is_none w = true <-> v = PNone /\ w = PNone.
Proof. rewrite andb_true_iff, !is_none_true. tauto. Qed.

Lemma not_both_none (v w : pyval) :
  is_none v && is_none w = false <-> v <> PNone \/ w <> PNone.
Proof. destruct v, w; simpl; split; intros; try tauto; try discriminate;
         try (left; discriminate); try (right; discriminate);
         destruct H; congruence. Qed.

(** X1. [BaseSetting.from_json] has three outcomes, decided in this order:
    [AttributeError] exactly when the value under [scope] is not a dict
    (absent, null or of another type), whatever the other keys hold; the
    validation error exactly when the scope is a dict and [value] and
    [defaultValue] are both null or absent; an entity otherwise.  It raises
    nothing else. *)
Theorem base_from_json_outcomes (j : pydict) (c p o : extref) :
  (BaseSetting.from_json j c p o = Raise AttributeError <->
   isinstance_dict (get_or_none j "scope") = false) /\
  (BaseSetting.from_json j c p o = Raise must_provide <->
   isinstance_dict (get_or_none j "scope") = true /\
   get_or_none j "value" = PNone /\ get_or_none j "defaultValue" = PNone) /\
  ((exists x, BaseSetting.from_json j c p o = Ok x) <->
   isinstance_dict (get_or_none j "scope") = true /\
   (get_or_none j "value" <> PNone \/ get_or_none j "defaultValue" <> PNone)) /\
  (forall e, BaseSetting.from_json j c p o = Raise e ->
             e = AttributeError \/ e = must_provide).
Proof.
  rewrite base_from_json_unfold.
  assert (NE : must_provide <> AttributeError) by discriminate.
  destruct (get_or_none j "scope") as [| | | | | |sd]; simpl.
  1-6: split; [tauto|]; split; [split; [congruence | intros [H _]; discriminate]|];
       split; [split; [intros [x H]; discriminate | intros [H _]; discriminate]|];
       intros e H; injection H as <-; tauto.
  destruct (is_none (get_or_none j "value") &&
            is_none (get_or_none j "defaultValue")) eqn:B.
  - apply both_none in B. destruct B as [Bv Bd].
    split; [split; [congruence | discriminate]|].
    split; [tauto|].
    split; [split; [intros [x H]; discriminate | intros [_ [H|H]]; congruence]|].
    intros e H. injection H as <-. tauto.
  - apply not_both_none in B.
    split; [split; discriminate|].
    split; [split; [discriminate | intros (_ & Hv & Hd); destruct B; congruence]|].
    split; [split; [tauto | eauto]|].
    discriminate.
Qed.

(** X2. On the same JSON object [Setting.from_json] and
    [BaseSetting.from_json] fail together, with the same exception, or
    return together; the base fields of the two entities are then equal,
    except [setting_type], which is [user_settings] in the [Setting] and the
    value under [settingType] in the [BaseSetting]. *)
Theorem setting_from_json_agrees (j : pydict) (c p o : extref) :
  match BaseSetting.from_json j c p o, Setting.from_json j c p o with
  | Raise e, Raise e' => e = e'
  | Ok b, Ok s =>
      Setting.base s =
      BaseSetting.mk (BaseSetting.default_value b) (BaseSetting.name b)
        (BaseSetting.value b) (BaseSetting.value_type b) (BaseSetting.scope b)
        (BaseSetting.metadata b) user_settings (BaseSetting.client_api b)
        (BaseSetting.project b) (BaseSetting.org b) (BaseSetting.id b)
        (BaseSetting.settings b) /\
      BaseSetting.setting_type b = get_or_none j "settingType"
  | _, _ => False
  end.
Proof.
  rewrite base_from_json_unfold, setting_from_json_unfold.
  destruct (get_or_none j "scope"); try reflexivity.
  destruct (is_none (get_or_none j "value") &&
            is_none (get_or_none j "defaultValue")); [reflexivity|].
  split; reflexivity.
Qed.

(** ** Keys that do not matter *)

Lemma get_or_none_set_other (j : pydict) (k k' : string) (v : pyval) :
  k' <> k -> get_or_none (dict_set j k v) k' = get_or_none j k'.
Proof.
  intros N. unfold get_or_none. rewrite dict_get_set_other; [reflexivity|].
  now apply String.eqb_neq.
Qed.

Lemma get_or_none_set_null (j : pydict) (k k' : string) :
  dict_get j k = None -> get_or_none (dict_set j k PNone) k' = get_or_none j k'.
Proof.
  intros A. unfold get_or_none. rewrite dict_get_set.
  destruct (String.eqb_spec k' k) as [->|_]; [now rewrite A | reflexivity].
Qed.

(** X3. [BaseSetting.from_json] depends on the eight keys it reads only:
    storing any value under any other key of the JSON object changes neither
    the outcome nor the entity. *)
Theorem base_from_json_ignores_other_keys
    (j : pydict) (k : string) (v : pyval) (c p o : extref) :
  ~ In k base_read_keys ->
  BaseSetting.from_json (dict_set j k v) c p o = BaseSetting.from_json j c p o.
Proof.
  intros N. unfold base_read_keys in N. simpl in N.
  rewrite !base_from_json_unfold.
  rewrite !get_or_none_set_other by (intros E; subst k; tauto). reflexivity.
Qed.

Lemma base_from_json_ignores_other_keys_witness :
  BaseSetting.from_json
    (dict_set [("scope", PDict []); ("value", PInt 1)] "description" (PStr "d"))
    (Ref 0) NoRef NoRef
  = BaseSetting.from_json [("scope", PDict []); ("value", PInt 1)]
      (Ref 0) NoRef NoRef.
Proof.
  apply base_from_json_ignores_other_keys.
  unfold base_read_keys. simpl.
  intros [H|[H|[H|[H|[H|[H|[H|[H|H]]]]]]]]; try discriminate H; exact H.
Defined.

(** X4. [Setting.from_json] depends on the thirteen keys it reads only; it
    never reads [settingType], so the stored setting type of the JSON object
    has no effect on the [Setting]. *)
Theorem setting_from_json_ignores_other_keys
    (j : pydict) (k : string) (v : pyval) (c p o : extref) :
  ~ In k setting_read_keys ->
  Setting.from_json (dict_set j k v) c p o = Setting.from_json j c p o.
Proof.
  intros N. unfold setting_read_keys in N. simpl in N.
  rewrite !setting_from_json_unfold.
  rewrite !get_or_none_set_other by (intros E; subst k; tauto). reflexivity.
Qed.

Lemma setting_from_json_ignores_other_keys_witness :
  Setting.from_json
    (dict_set [("scope", PDict []); ("value", PInt 1)] "settingType"
       (PStr "feature_flag")) (Ref 0) NoRef NoRef
  = Setting.from_json [("scope", PDict []); ("value", PInt 1)]
      (Ref 0) NoRef NoRef.
Proof.
  apply setting_from_json_ignores_other_keys.
  unfold setting_read_keys. simpl.
  intros [H|[H|[H|[H|[H|[H|[H|[H|[H|[H|[H|[H|[H|H]]]]]]]]]]]]];
    try discriminate H; exact H.
Defined.

(** X5. For both [from_json] methods a key that holds null reads as an
    absent key: adding a null under a key the JSON object does not have
    changes neither the outcome nor the entity.  This includes [scope]
    (where both fail) and the keys of the nested scope object. *)
Theorem from_json_null_is_absent (j : pydict) (k : string) (c p o : extref) :
  dict_get j k = None ->
  BaseSetting.from_json (dict_set j k PNone) c p o = BaseSetting.from_json j c p o /\
  Setting.from_json (dict_set j k PNone) c p o = Setting.from_json j c p o /\
  SettingScope.from_json (PDict (dict_set j k PNone)) = SettingScope.from_json (PDict j).
Proof.
  intros A. rewrite !base_from_json_unfold, !setting_from_json_unfold.
  unfold SettingScope.from_json.
  rewrite !(get_or_none_set_null _ _ _ A). auto.
Qed.

Lemma from_json_null_is_absent_witness :
  BaseSetting.from_json (dict_set [("scope", PDict []); ("value", PInt 1)] "id" PNone)
    (Ref 0) NoRef NoRef
  = BaseSetting.from_json [("scope", PDict []); ("value", PInt 1)] (Ref 0) NoRef NoRef.
Proof.
  apply (from_json_null_is_absent [("scope", PDict []); ("value", PInt 1)] "id").
  reflexivity.
Defined.

(** ** SettingScope: what a round trip keeps *)

Lemma keep_truthy_fixed (v : pyval) : keep_truthy v = v <-> survives v = true.
Proof.
  unfold keep_truthy, survives. destruct (truthy v); simpl; [tauto|].
  rewrite is_none_true. split; congruence.
Qed.

(** X6. Writing a scope with [to_json] and reading it back gives the same
    scope exactly when each of its five fields is truthy or [None]; any
    other field value ([False], [0], the empty string, an empty list or
    dict) is lost. *)
Theorem scope_round_trip_lossless_iff (s : SettingScope.t) :
  SettingScope.from_json (PDict (SettingScope.to_json s)) = Ok s <->
  survives (SettingScope.type s) = true /\
  survives (SettingScope.id s) = true /\
  survives (SettingScope.role s) = true /\
  survives (SettingScope.prevent_override s) = true /\
  survives (SettingScope.visible s) = true.
Proof.
  rewrite scope_from_json_to_json. rewrite <- !keep_truthy_fixed.
  destruct s as [ty i r po vi]. unfold scope_keep_truthy. simpl. split.
  - intros H. injection H. auto.
  - intros (-> & -> & -> & -> & ->). reflexivity.
Qed.

(** The value under any key of the dict [SettingScope.to_json] returns. *)
Lemma scope_to_json_get (s : SettingScope.t) (k : string) :
  dict_get (SettingScope.to_json s) k =
  if String.eqb k "type" && truthy (SettingScope.type s)
  then Some (SettingScope.type s)
  else if String.eqb k "id" && truthy (SettingScope.id s)
  then Some (SettingScope.id s)
  else if String.eqb k "role" && truthy (SettingScope.role s)
  then Some (SettingScope.role s)
  else if String.eqb k "preventOverride" && truthy (SettingScope.prevent_override s)
  then Some (SettingScope.prevent_override s)
  else if String.eqb k "visible" && truthy (SettingScope.visible s)
  then Some (SettingScope.visible s)
  else None.
Proof.
  destruct s as [ty i r po vi]. unfold SettingScope.to_json. simpl.
  destruct (String.eqb_spec k "type") as [->|]; simpl;
    [destruct (truthy ty), (truthy i), (truthy r), (truthy po), (truthy vi);
     reflexivity|].
  destruct (String.eqb_spec k "id") as [->|]; simpl;
    [destruct (truthy ty), (truthy i), (truthy r), (truthy po), (truthy vi);
     reflexivity|].
  destruct (String.eqb_spec k "role") as [->|]; simpl;
    [destruct (truthy ty), (truthy i), (truthy r), (truthy po), (truthy vi);
     reflexivity|].
  destruct (String.eqb_spec k "preventOverride") as [->|]; simpl;
    [destruct (truthy ty), (truthy i), (truthy r), (truthy po), (truthy vi);
     reflexivity|].
  destruct (String.eqb_spec k "visible") as [->|]; simpl;
    [destruct (truthy ty), (truthy i), (truthy r), (truthy po), (truthy vi);
     reflexivity|].
  destruct (truthy ty), (truthy i), (truthy r), (truthy po), (truthy vi);
    simpl;
    repeat match goal with
           | H : k <> ?s |- context [String.eqb k ?s] =>
               rewrite (proj2 (String.eqb_neq k s) H)
           end; reflexivity.
Qed.

(** X7. Reading a JSON scope object and writing it back keeps exactly the
    truthy values found under the five scope keys: every other key, and
    every falsy value, is gone. *)
Theorem scope_from_json_to_json_filters (d : pydict) (k : string) :
  exists s,
    SettingScope.from_json (PDict d) = Ok s /\
    dict_get (SettingScope.to_json s) k =
    if existsb (String.eqb k) scope_keys && truthy (get_or_none d k)
    then dict_get d k
    else None.
Proof.
  eexists. split; [reflexivity|]. rewrite scope_to_json_get. simpl.
  assert (G : forall k', truthy (get_or_none d k') = true ->
                         dict_get d k' = Some (get_or_none d k')).
  { intros k'. unfold get_or_none. destruct (dict_get d k'); [reflexivity|].
    discriminate. }
  destruct (String.eqb_spec k "type") as [->|]; simpl;
    [destruct (truthy _) eqn:T; [now rewrite G|reflexivity]|].
  destruct (String.eqb_spec k "id") as [->|]; simpl;
    [destruct (truthy _) eqn:T; [now rewrite G|reflexivity]|].
  destruct (String.eqb_spec k "role") as [->|]; simpl;
    [destruct (truthy _) eqn:T; [now rewrite G|reflexivity]|].
  destruct (String.eqb_spec k "preventOverride") as [->|]; simpl;
    [destruct (truthy _) eqn:T; [now rewrite G|reflexivity]|].
  destruct (String.eqb_spec k "visible") as [->|]; simpl;
    [destruct (truthy _) eqn:T; [now rewrite G|reflexivity]|].
  reflexivity.
Qed.

(** X8. A scope whose [type] and [role] are members of
    [PlatformEntityType] and [Role] always serialises both: no member has a
    falsy value, and the two keys map to the members' values. *)
Theorem scope_enum_members_serialised
    (t : PlatformEntityType) (r : Role) (i po vi : pyval) :
  let out :=
    SettingScope.to_json
      (SettingScope.mk (PStr (PlatformEntityType_value t)) i
         (PStr (Role_value r)) po vi) in
  dict_get out "type" = Some (PStr (PlatformEntityType_value t)) /\
  dict_get out "role" = Some (PStr (Role_value r)).
Proof.
  simpl. rewrite !scope_to_json_get. simpl. split.
  - now destruct t.
  - destruct r; simpl; rewrite ?andb_false_r; reflexivity.
Qed.

(** ** When the body of a loop raises *)

Lemma for_each_raises (body : mutation) (l l' : list pyval) (e : exn) :
  for_each body l = (l', Some e) ->
  exists x, In x l /\ snd (body x) = Some e.
Proof.
  revert l'. induction l as [|x r IH]; simpl; intros l' H; [discriminate|].
  destruct (body x) as [x' [e'|]] eqn:B.
  - injection H as _ <-. exists x. rewrite B. auto.
  - destruct (for_each body r) as [r' e'']. injection H as _ ->.
    destruct (IH _ eq_refl) as (y & Hy & By). eauto.
Qed.

Lemma display_scope_step_raises (x : pyval) (e : exn) :
  snd (BaseSetting.display_scope_step x) = Some e ->
  e = TypeError /\ isinstance_dict x = false.
Proof.
  unfold BaseSetting.display_scope_step.
  destruct x as [| | | |s|l|d]; simpl; try (intros H; injection H as <-; auto).
  - destruct (str_contains "filter" s); simpl; intros H;
      [injection H as <-; auto | discriminate].
  - destruct (existsb _ l); simpl; intros H;
      [injection H as <-; auto | discriminate].
  - unfold dict_mem. destruct (dict_get d "filter") as [f|]; simpl;
      [|discriminate].
    destruct (isinstance_dict f); discriminate.
Qed.

(** ** Keys of a dict after a store *)

Lemma dict_set_keys (d : pydict) (k : string) (v : pyval) :
  dict_mem d k = true -> map fst (dict_set d k v) = map fst d.
Proof.
  unfold dict_mem. induction d as [|[k' v'] r IH]; simpl; [discriminate|].
  destruct (String.eqb k k'); simpl; [reflexivity|].
  intros H. now rewrite IH.
Qed.

Lemma dict_mem_get (d : pydict) (k : string) (v : pyval) :
  dict_get d k = Some v -> dict_mem d k = true.
Proof. unfold dict_mem. now intros ->. Qed.

(** ** Calling [to_json] again *)

Lemma for_each_idem (body : mutation) (l l' : list pyval) (o : option exn) :
  (forall x x' o', body x = (x', o') -> body x' = (x', o')) ->
  for_each body l = (l', o) ->
  for_each body l' = (l', o).
Proof.
  intros Idem. revert l' o. induction l as [|x r IH]; simpl; intros l' o H.
  - now injection H as <- <-.
  - destruct (body x) as [x' [e|]] eqn:B.
    + injection H as <- <-. simpl. now rewrite (Idem x _ _ B).
    + destruct (for_each body r) as [r' o'] eqn:F. injection H as <- <-.
      simpl. rewrite (Idem x _ _ B). now rewrite (IH _ _ eq_refl).
Qed.

Lemma display_scope_step_idem (x x' : pyval) (o : option exn) :
  BaseSetting.display_scope_step x = (x', o) ->
  BaseSetting.display_scope_step x' = (x', o).
Proof.
  intros H. destruct o as [e|]; [|now apply (display_scope_step_stable x)].
  assert (D : isinstance_dict x = false).
  { apply (display_scope_step_raises x e). now rewrite H. }
  pose proof (display_scope_step_other x D) as E. rewrite H in E. simpl in E.
  now subst x'.
Qed.

Lemma slot_to_db_slot_idem (slot slot' : pyval) (o : option exn) :
  BaseSetting.slot_to_db_slot slot = (slot', o) ->
  BaseSetting.slot_to_db_slot slot' = (slot', o).
Proof.
  intros H. destruct (scopes_of slot) as [l|] eqn:S.
  - destruct slot as [| | | | | |d]; try discriminate. simpl in S.
    destruct (dict_get d "displayScopes") as [[| | | | |l0|]|] eqn:G;
      try discriminate.
    injection S as ->. rewrite (slot_to_db_slot_list _ _ G) in H.
    destruct (for_each _ l) as [l' o'] eqn:F. injection H as <- <-.
    rewrite (slot_to_db_slot_list _ l') by apply dict_get_set_same.
    rewrite (for_each_idem _ _ _ _ display_scope_step_idem F).
    now rewrite dict_set_twice.
  - pose proof (slot_to_db_slot_other slot S) as E. rewrite H in E.
    simpl in E. now subst slot'.
Qed.

Lemma slots_to_db_slots_idem (metadata metadata' : pyval) (o : option exn) :
  BaseSetting.slots_to_db_slots metadata = (metadata', o) ->
  BaseSetting.slots_to_db_slots metadata' = (metadata', o).
Proof.
  intros H. destruct (slots_of metadata) as [l|] eqn:S.
  - destruct metadata as [| | | | | |d]; try discriminate. simpl in S.
    destruct (dict_get d "slots") as [[| | | | |l0|]|] eqn:G; try discriminate.
    injection S as ->. rewrite (slots_to_db_slots_list _ _ G) in H.
    destruct (for_each _ l) as [l' o'] eqn:F. injection H as <- <-.
    rewrite (slots_to_db_slots_list _ l') by apply dict_get_set_same.
    rewrite (for_each_idem _ _ _ _ slot_to_db_slot_idem F).
    now rewrite dict_set_twice.
  - pose proof (slots_to_db_slots_other metadata S) as E. rewrite H in E.
    simpl in E. now subst metadata'.
Qed.

Lemma base_to_json_idem (self self' : BaseSetting.t) (r : result pydict) :
  BaseSetting.to_json self = (self', r) ->
  BaseSetting.to_json self' = (self', r).
Proof.
  unfold BaseSetting.to_json.
  destruct (BaseSetting.slots_to_db_slots (BaseSetting.metadata self))
    as [m' o] eqn:P.
  apply slots_to_db_slots_idem in P.
  destruct self. cbn [BaseSetting.set_metadata BaseSetting.metadata].
  destruct o as [e|]; intros H; injection H as <- <-;
    cbn [BaseSetting.metadata BaseSetting.set_metadata]; now rewrite P.
Qed.

(** X12. [to_json] is idempotent on the entity, in [BaseSetting] and in
    [Setting], whatever the outcome: called again on the entity as the first
    call left it, it leaves the entity as it is and gives the same result,
    the same dict or the same exception. *)
Theorem to_json_idempotent :
  (forall self : BaseSetting.t,
     BaseSetting.to_json (fst (BaseSetting.to_json self))
     = BaseSetting.to_json self) /\
  (forall self : Setting.t,
     Setting.to_json (fst (Setting.to_json self)) = Setting.to_json self).
Proof.
  split.
  - intros self. destruct (BaseSetting.to_json self) as [self' r] eqn:H.
    simpl. now apply base_to_json_idem in H.
  - intros self. unfold Setting.to_json at 2 3.
    destruct (BaseSetting.to_json (Setting.base self)) as [b' r] eqn:H.
    apply base_to_json_idem in H.
    destruct self as [b d i ic sn h ssn]. simpl in *.
    destruct r as [bj|e]; simpl; unfold Setting.to_json; simpl; now rewrite H.
Qed.

(** ** Round trips of [Setting] *)

(** The entity that [from_json] builds from a dict returned by [to_json]
    serialises to that dict again. *)
Lemma to_json_read_back
    (x x' : BaseSetting.t) (J : pydict) (c p o : extref) (rp : Settings) :
  BaseSetting.to_json x = (x', Ok J) ->
  BaseSetting.to_json
    (BaseSetting.mk (BaseSetting.default_value x') (BaseSetting.name x')
       (BaseSetting.value x') (BaseSetting.value_type x')
       (scope_keep_truthy (BaseSetting.scope x')) (BaseSetting.metadata x')
       (BaseSetting.setting_type x') c p o (BaseSetting.id x') rp)
  = (BaseSetting.mk (BaseSetting.default_value x') (BaseSetting.name x')
       (BaseSetting.value x') (BaseSetting.value_type x')
       (scope_keep_truthy (BaseSetting.scope x')) (BaseSetting.metadata x')
       (BaseSetting.setting_type x') c p o (BaseSetting.id x') rp,
     Ok J).
Proof.
  unfold BaseSetting.to_json.
  destruct (BaseSetting.slots_to_db_slots (BaseSetting.metadata x))
    as [m' [e|]] eqn:P; [discriminate|].
  intros H. injection H as <- <-. destruct x. simpl.
  now rewrite (slots_to_db_slots_stable _ _ P), scope_to_json_keep_truthy.
Qed.

Lemma get_back (v : pyval) :
  match (if negb (is_none v) then Some v else None) with
  | Some a => a
  | None => PNone
  end = v.
Proof. now destruct v. Qed.

Lemma get_back_id (v : pyval) :
  match (if negb (is_none v) then Some v else Some v) with
  | Some a => a
  | None => PNone
  end = v.
Proof. now destruct v. Qed.

Lemma setting_from_json_to_json
    (s s' : Setting.t) (J : pydict) (c p o : extref) :
  BaseSetting.setting_type (Setting.base s) = user_settings ->
  BaseSetting.value (Setting.base s) <> PNone \/
  BaseSetting.default_value (Setting.base s) <> PNone ->
  Setting.to_json s = (s', Ok J) ->
  Setting.from_json J c p o
  = Ok (Setting.mk
          (BaseSetting.mk
             (BaseSetting.default_value (Setting.base s'))
             (BaseSetting.name (Setting.base s'))
             (BaseSetting.value (Setting.base s'))
             (BaseSetting.value_type (Setting.base s'))
             (scope_keep_truthy (BaseSetting.scope (Setting.base s')))
             (BaseSetting.metadata (Setting.base s'))
             (BaseSetting.setting_type (Setting.base s'))
             c p o (BaseSetting.id (Setting.base s')) (mkSettings c p o))
          (Setting.description s') (Setting.inputs s') (Setting.icon s')
          (Setting.section_name s') (Setting.hint s')
          (Setting.sub_section_name s')).
Proof.
  intros T V H.
  destruct (BaseSetting.to_json (Setting.base s)) as [b' [bj|e]] eqn:B;
    [|rewrite (setting_to_json_raises _ _ _ B) in H; discriminate].
  destruct (setting_to_json_ok _ _ _ B) as (sj & Hs & G).
  rewrite Hs in H. injection H as <- <-.
  destruct (to_json_ok _ _ _ B) as (m' & P & -> & Gb).
  rewrite setting_from_json_unfold. unfold get_or_none.
  rewrite !G, !Gb. simpl. rewrite !andb_false_r, !andb_true_r.
  destruct s as [b d i ic sn h ssn].
  destruct b as [dv n v vt sc md st c0 p0 o0 id0 rp]. simpl in *.
  rewrite !get_back, get_back_id. subst st.
  apply not_both_none in V. rewrite V.
  unfold SettingScope.to_json, scope_keep_truthy, keep_truthy.
  destruct sc as [ty si r po vi]. simpl.
  destruct (truthy ty), (truthy si), (truthy r), (truthy po), (truthy vi);
    reflexivity.
Qed.

(** X13. For a [Setting] with the setting type its constructor gives and a
    [value] or [default_value], whenever [to_json] returns [J]:
    [Setting.from_json] accepts [J], and the [Setting] read back serialises
    to [J] again, unchanged by that call; its presentation fields are those
    of the original, its scope the original's with every field that was not
    truthy set to [None]. *)
Theorem setting_to_json_round_trip
    (s s' : Setting.t) (J : pydict) (c p o : extref) :
  BaseSetting.setting_type (Setting.base s) = user_settings ->
  BaseSetting.value (Setting.base s) <> PNone \/
  BaseSetting.default_value (Setting.base s) <> PNone ->
  Setting.to_json s = (s', Ok J) ->
  exists y,
    Setting.from_json J c p o = Ok y /\
    Setting.to_json y = (y, Ok J) /\
    Setting.description y = Setting.description s /\
    Setting.inputs y = Setting.inputs s /\
    Setting.icon y = Setting.icon s /\
    Setting.section_name y = Setting.section_name s /\
    Setting.hint y = Setting.hint s /\
    Setting.sub_section_name y = Setting.sub_section_name s /\
    BaseSetting.scope (Setting.base y)
    = scope_keep_truthy (BaseSetting.scope (Setting.base s)) /\
    BaseSetting.metadata (Setting.base y) = BaseSetting.metadata (Setting.base s').
Proof.
  intros T V H. eexists. split; [eapply (setting_from_json_to_json s); eassumption|].
  revert H. unfold Setting.to_json at 1.
  destruct (BaseSetting.to_json (Setting.base s)) as [b' [bj|e]] eqn:B;
    [|discriminate].
  intros H. injection H as <- <-.
  pose proof (to_json_read_back _ _ _ c p o (mkSettings c p o) B) as R.
  destruct (to_json_ok _ _ _ B) as (m' & _ & E & _).
  destruct s as [b d i ic sn h ssn]. simpl in *.
  split.
  - unfold Setting.to_json. simpl. rewrite R. reflexivity.
  - subst b'. destruct b. simpl. repeat split.
Qed.


Lemma PStr_not_none (s : string) : PStr s <> PNone.
Proof. discriminate. Qed.

Lemma setting_to_json_round_trip_witness :
  exists y,
    Setting.from_json
      [ ("name", PStr "theme"); ("valueType", PStr "select");
        ("scope", PDict [("type", PStr "user")]);
        ("settingType", PStr "user_settings"); ("id", PStr "s1");
        ("value", PStr "dark"); ("description", PStr "Colour theme") ]
      (Ref 0) NoRef NoRef = Ok y /\
    Setting.description y = PStr "Colour theme".
Proof.
  destruct (setting_to_json_round_trip
              (Setting.mk
                 (BaseSetting.mk PNone (PStr "theme") (PStr "dark") (PStr "select")
                    (SettingScope.mk (PStr "user") PNone PNone PNone (PBool false))
                    PNone user_settings (Ref 0) NoRef NoRef (PStr "s1")
                    (mkSettings (Ref 0) NoRef NoRef))
                 (PStr "Colour theme") PNone PNone PNone PNone PNone)
              (Setting.mk
                 (BaseSetting.mk PNone (PStr "theme") (PStr "dark") (PStr "select")
                    (SettingScope.mk (PStr "user") PNone PNone PNone (PBool false))
                    PNone user_settings (Ref 0) NoRef NoRef (PStr "s1")
                    (mkSettings (Ref 0) NoRef NoRef))
                 (PStr "Colour theme") PNone PNone PNone PNone PNone)
              [ ("name", PStr "theme"); ("valueType", PStr "select");
                ("scope", PDict [("type", PStr "user")]);
                ("settingType", PStr "user_settings"); ("id", PStr "s1");
                ("value", PStr "dark"); ("description", PStr "Colour theme") ]
              (Ref 0) NoRef NoRef eq_refl
              (or_introl (PStr_not_none "dark")) eq_refl)
    as (y & Hy & _ & Hd & _).
  exists y. split; [exact Hy | exact Hd].
Defined.

(** X14. A dict returned by [Setting.to_json] can be read by
    [BaseSetting.from_json]: the presentation keys are ignored, and the
    entity read serialises to the dict of the base class, which holds none
    of the six presentation keys. *)
Theorem setting_json_read_as_base
    (s s' : Setting.t) (J : pydict) (c p o : extref) :
  BaseSetting.value (Setting.base s) <> PNone \/
  BaseSetting.default_value (Setting.base s) <> PNone ->
  Setting.to_json s = (s', Ok J) ->
  exists b bj,
    BaseSetting.to_json (Setting.base s) = (Setting.base s', Ok bj) /\
    BaseSetting.from_json J c p o = Ok b /\
    BaseSetting.to_json b = (b, Ok bj) /\
    (forall k, In k setting_keys -> dict_get bj k = None).
Proof.
  intros V H.
  destruct (BaseSetting.to_json (Setting.base s)) as [b' [bj|e]] eqn:B;
    [|rewrite (setting_to_json_raises _ _ _ B) in H; discriminate].
  destruct (setting_to_json_ok _ _ _ B) as (sj & Hs & G).
  rewrite Hs in H. injection H as <- <-.
  assert (Hb : BaseSetting.from_json sj c p o = BaseSetting.from_json bj c p o).
  { destruct (to_json_ok _ _ _ B) as (m' & _ & E & Gb).
    assert (Hid : dict_get bj "id" = Some (BaseSetting.id b')).
    { rewrite Gb. simpl. rewrite !andb_false_r. subst b'.
      now destruct (Setting.base s). }
    rewrite !base_from_json_unfold. unfold get_or_none.
    rewrite !G. simpl. rewrite !andb_false_r, andb_true_r, Hid.
    now destruct (is_none (BaseSetting.id b')). }
  eexists. exists bj. split.
  - destruct s; reflexivity.
  - rewrite Hb. split; [eapply from_json_to_json; eauto|].
    split; [eapply to_json_read_back; eauto|].
    intros k Hk. destruct (to_json_ok _ _ _ B) as (m' & _ & _ & Gb).
    rewrite Gb. unfold setting_keys in Hk. simpl in Hk.
    repeat (destruct Hk as [<-|Hk]; [simpl; now rewrite !andb_false_r|]).
    contradiction.
Qed.

Lemma setting_json_read_as_base_witness :
  exists b,
    BaseSetting.from_json
      [ ("name", PStr "theme"); ("valueType", PStr "select");
        ("scope", PDict [("type", PStr "user")]);
        ("settingType", PStr "user_settings"); ("id", PStr "s1");
        ("value", PStr "dark"); ("description", PStr "Colour theme") ]
      (Ref 0) NoRef NoRef = Ok b /\
    BaseSetting.to_json b =
    (b, Ok [ ("name", PStr "theme"); ("valueType", PStr "select");
             ("scope", PDict [("type", PStr "user")]);
             ("settingType", PStr "user_settings"); ("id", PStr "s1");
             ("value", PStr "dark") ]).
Proof.
  destruct (setting_json_read_as_base
              (Setting.mk
                 (BaseSetting.mk PNone (PStr "theme") (PStr "dark") (PStr "select")
                    (SettingScope.mk (PStr "user") PNone PNone PNone (PBool false))
                    PNone user_settings (Ref 0) NoRef NoRef (PStr "s1")
                    (mkSettings (Ref 0) NoRef NoRef))
                 (PStr "Colour theme") PNone PNone PNone PNone PNone)
              (Setting.mk
                 (BaseSetting.mk PNone (PStr "theme") (PStr "dark") (PStr "select")
                    (SettingScope.mk (PStr "user") PNone PNone PNone (PBool false))
                    PNone user_settings (Ref 0) NoRef NoRef (PStr "s1")
                    (mkSettings (Ref 0) NoRef NoRef))
                 (PStr "Colour theme") PNone PNone PNone PNone PNone)
              [ ("name", PStr "theme"); ("valueType", PStr "select");
                ("scope", PDict [("type", PStr "user")]);
                ("settingType", PStr "user_settings"); ("id", PStr "s1");
                ("value", PStr "dark"); ("description", PStr "Colour theme") ]
              (Ref 0) NoRef NoRef
              (or_introl (PStr_not_none "dark")) eq_refl)
    as (b & bj & Hbj & Hb & Ht & _).
  exists b. split; [exact Hb|].
  injection Hbj as <-. exact Ht.
Defined.

(** X15. For an entity built by the constructor with the context later
    given to [from_json], reading back the dict that [to_json] returned
    gives exactly the entity that [to_json] left, if and only if each of the
    five scope fields is truthy or [None]. *)
Theorem base_round_trip_lossless_iff
    (default_value value name value_type : pyval) (scope : SettingScope.t)
    (metadata setting_type id : pyval) (client_api project org : extref)
    (x x' : BaseSetting.t) (J : pydict) :
  BaseSetting.init default_value value name value_type scope metadata
    setting_type id client_api project org = Ok x ->
  BaseSetting.to_json x = (x', Ok J) ->
  (BaseSetting.from_json J client_api project org = Ok x' <->
   survives (SettingScope.type scope) = true /\
   survives (SettingScope.id scope) = true /\
   survives (SettingScope.role scope) = true /\
   survives (SettingScope.prevent_override scope) = true /\
   survives (SettingScope.visible scope) = true).
Proof.
  intros I H. apply init_ok_inv in I. destruct I as [V ->].
  rewrite (from_json_to_json _ _ _ client_api project org
             (V : BaseSetting.value (BaseSetting.mk default_value name value
                    value_type scope metadata setting_type client_api project org
                    id (mkSettings client_api project org)) <> PNone \/ _) H).
  destruct (to_json_ok _ _ _ H) as (m' & _ & -> & _). simpl.
  rewrite <- !keep_truthy_fixed.
  destruct scope as [ty i r po vi]. unfold scope_keep_truthy. simpl. split.
  - intros E. injection E. auto.
  - intros (-> & -> & -> & -> & ->). reflexivity.
Qed.

Lemma base_round_trip_lossless_iff_witness :
  BaseSetting.from_json
    [ ("name", PStr "flag1"); ("valueType", PStr "boolean");
      ("scope", PDict [("type", PStr "project"); ("visible", PBool true)]);
      ("settingType", PStr "feature_flag"); ("id", PNone);
      ("value", PBool true) ] (Ref 0) NoRef NoRef
  = Ok (BaseSetting.mk PNone (PStr "flag1") (PBool true) (PStr "boolean")
          (SettingScope.mk (PStr "project") PNone PNone PNone (PBool true))
          PNone (PStr "feature_flag") (Ref 0) NoRef NoRef PNone
          (mkSettings (Ref 0) NoRef NoRef)).
Proof.
  apply (base_round_trip_lossless_iff
           PNone (PBool true) (PStr "flag1") (PStr "boolean")
           (SettingScope.mk (PStr "project") PNone PNone PNone (PBool true))
           PNone (PStr "feature_flag") PNone (Ref 0) NoRef NoRef
           _ _ _ eq_refl eq_refl).
  repeat split.
Defined.

(** ** Order of the keys *)

Lemma dict_set_keys_new (d : pydict) (k : string) (v : pyval) :
  dict_mem d k = false -> map fst (dict_set d k v) = (map fst d ++ [k])%list.
Proof.
  unfold dict_mem. induction d as [|[k' v'] r IH]; simpl; [reflexivity|].
  destruct (String.eqb k k'); [discriminate|]. simpl.
  intros H. now rewrite IH.
Qed.

Lemma keys_cond_set (c : bool) (d : pydict) (k : string) (v : pyval) :
  map fst (if c then dict_set d k v else d) =
  (map fst d ++ (if c && negb (dict_mem d k) then [k] else []))%list.
Proof.
  destruct c; simpl; [|now rewrite app_nil_r].
  destruct (dict_mem d k) eqn:M; simpl.
  - rewrite app_nil_r. now apply dict_set_keys.
  - now apply dict_set_keys_new.
Qed.

Lemma dict_mem_cond_set (c : bool) (d : pydict) (k k' : string) (v : pyval) :
  dict_mem (if c then dict_set d k v else d) k' =
  (c && String.eqb k' k) || dict_mem d k'.
Proof.
  unfold dict_mem. rewrite dict_get_cond_set.
  now destruct (c && String.eqb k' k).
Qed.

Lemma if_negb {A : Type} (b : bool) (x y : A) :
  (if negb b then x else y) = (if b then y else x).
Proof. now destruct b. Qed.

Lemma base_to_json_key_order (self self' : BaseSetting.t) (out : pydict) :
  BaseSetting.to_json self = (self', Ok out) ->
  map fst out =
  (["name"; "valueType"; "scope"; "settingType"; "id"]
   ++ (if is_none (BaseSetting.metadata self) then [] else ["metadata"])
   ++ (if is_none (BaseSetting.value self) then [] else ["value"])
   ++ (if is_none (BaseSetting.default_value self) then []
       else ["defaultValue"]))%list.
Proof.
  unfold BaseSetting.to_json.
  destruct (BaseSetting.slots_to_db_slots (BaseSetting.metadata self))
    as [m' [e|]] eqn:P; [discriminate|].
  intros H. injection H as <- <-.
  pose proof (slots_to_db_slots_none (BaseSetting.metadata self)) as N.
  rewrite P in N. simpl in N.
  destruct self as [dv n v vt sc md st c p o i rp]. simpl in *.
  rewrite N.
  destruct (is_none md), (is_none v), (is_none dv); reflexivity.
Qed.

(** X16. The keys of a dict returned by [BaseSetting.to_json] are [name],
    [valueType], [scope], [settingType], [id], then [metadata], [value],
    [defaultValue] for the fields that are not [None], in this order;
    [Setting.to_json] continues with [description], [inputs], [icon],
    [sectionName], [hint], [subSectionName] for the fields that are not
    [None], and its second store of [id] adds no key. *)
Theorem to_json_key_order :
  (forall (self self' : BaseSetting.t) (out : pydict),
     BaseSetting.to_json self = (self', Ok out) ->
     map fst out =
     (["name"; "valueType"; "scope"; "settingType"; "id"]
      ++ (if is_none (BaseSetting.metadata self) then [] else ["metadata"])
      ++ (if is_none (BaseSetting.value self) then [] else ["value"])
      ++ (if is_none (BaseSetting.default_value self) then []
          else ["defaultValue"]))%list) /\
  (forall (self self' : Setting.t) (out : pydict),
     Setting.to_json self = (self', Ok out) ->
     map fst out =
     (["name"; "valueType"; "scope"; "settingType"; "id"]
      ++ (if is_none (BaseSetting.metadata (Setting.base self)) then []
          else ["metadata"])
      ++ (if is_none (BaseSetting.value (Setting.base self)) then []
          else ["value"])
      ++ (if is_none (BaseSetting.default_value (Setting.base self)) then []
          else ["defaultValue"])
      ++ (if is_none (Setting.description self) then [] else ["description"])
      ++ (if is_none (Setting.inputs self) then [] else ["inputs"])
      ++ (if is_none (Setting.icon self) then [] else ["icon"])
      ++ (if is_none (Setting.section_name self) then [] else ["sectionName"])
      ++ (if is_none (Setting.hint self) then [] else ["hint"])
      ++ (if is_none (Setting.sub_section_name self) then []
          else ["subSectionName"]))%list).
Proof.
  split; [exact base_to_json_key_order|].
  intros self self' out. unfold Setting.to_json.
  destruct (BaseSetting.to_json (Setting.base self)) as [b' [bj|e]] eqn:B;
    [|discriminate].
  intros H. injection H as <- <-.
  pose proof (base_to_json_key_order _ _ _ B) as K.
  destruct (to_json_ok _ _ _ B) as (m' & _ & _ & Gb).
  assert (Hid : dict_mem bj "id" = true).
  { unfold dict_mem. rewrite Gb. simpl. now rewrite !andb_false_r. }
  assert (Hnew : forall k, In k setting_keys -> dict_mem bj k = false).
  { intros k Hk. unfold dict_mem. rewrite Gb.
    unfold setting_keys in Hk. simpl in Hk.
    repeat (destruct Hk as [<-|Hk]; [simpl; now rewrite !andb_false_r|]).
    contradiction. }
  cbv zeta. rewrite !keys_cond_set, !dict_mem_cond_set.
  rewrite Hid.
  rewrite !Hnew by (unfold setting_keys; simpl; tauto).
  simpl. rewrite !andb_false_r, !andb_true_r. simpl.
  rewrite !if_negb, app_nil_r, K, <- !app_assoc. simpl.
  reflexivity.
Qed.

Lemma to_json_key_order_witness :
  map fst
    [ ("name", PStr "flag1"); ("valueType", PStr "boolean");
      ("scope", PDict [("type", PStr "project")]);
      ("settingType", PStr "feature_flag"); ("id", PNone);
      ("value", PBool true) ]
  = ["name"; "valueType"; "scope"; "settingType"; "id"; "value"].
Proof.
  apply (proj1 to_json_key_order
           (BaseSetting.mk PNone (PStr "flag1") (PBool true) (PStr "boolean")
              (SettingScope.mk (PStr "project") PNone PNone PNone PNone)
              PNone (PStr "feature_flag") (Ref 0) NoRef NoRef PNone
              (mkSettings (Ref 0) NoRef NoRef))
           (BaseSetting.mk PNone (PStr "flag1") (PBool true) (PStr "boolean")
              (SettingScope.mk (PStr "project") PNone PNone PNone PNone)
              PNone (PStr "feature_flag") (Ref 0) NoRef NoRef PNone
              (mkSettings (Ref 0) NoRef NoRef))
           [ ("name", PStr "flag1"); ("valueType", PStr "boolean");
             ("scope", PDict [("type", PStr "project")]);
             ("settingType", PStr "feature_flag"); ("id", PNone);
             ("value", PBool true) ]
           eq_refl).
Defined.

(** ** Display scopes that are not a list *)

Lemma display_scope_step_str (k : string) :
  BaseSetting.display_scope_step (PStr k) =
  (PStr k, if str_contains "filter" k then Some TypeError else None).
Proof.
  unfold BaseSetting.display_scope_step. simpl.
  now destruct (str_contains "filter" k).
Qed.

Lemma one_char_has_no_filter (c : ascii) :
  str_contains "filter" (String c "") = false.
Proof.
  cbn [str_contains String.prefix]. destruct (ascii_dec "f" c); reflexivity.
Qed.

Lemma for_each_strings (ks : list string) :
  for_each BaseSetting.display_scope_step (map PStr ks) =
  (map PStr ks,
   if existsb (str_contains "filter") ks then Some TypeError else None).
Proof.
  induction ks as [|k r IH]; simpl; [reflexivity|].
  rewrite display_scope_step_str.
  destruct (str_contains "filter" k); simpl; [reflexivity|].
  now rewrite IH.
Qed.

(** X17. A [displayScopes] that is a string is walked character by
    character: nothing is encoded and nothing is raised.  A [displayScopes]
    that is a dict is walked key by key: the display scopes stored in it are
    never encoded, and [TypeError] is raised exactly when one of its keys
    contains the text [filter]. *)
Theorem display_scopes_not_a_list (d : pydict) :
  (forall s : string,
     dict_get d "displayScopes" = Some (PStr s) ->
     BaseSetting.slot_to_db_slot (PDict d) = (PDict d, None)) /\
  (forall sd : pydict,
     dict_get d "displayScopes" = Some (PDict sd) ->
     BaseSetting.slot_to_db_slot (PDict d) =
     (PDict d,
      if existsb (str_contains "filter") (map fst sd)
      then Some TypeError else None)).
Proof.
  split.
  - intros s G. unfold BaseSetting.slot_to_db_slot. simpl. unfold dict_mem.
    rewrite G. simpl. destruct (String.eqb s ""); simpl; [reflexivity|].
    rewrite <- (map_map (fun c => String c "") PStr), for_each_strings.
    assert (E : existsb (str_contains "filter")
                  (map (fun c => String c "") (list_ascii_of_string s)) = false).
    { induction (list_ascii_of_string s) as [|c r IH]; [reflexivity|].
      cbn [map existsb]. now rewrite one_char_has_no_filter, IH. }
    now rewrite E.
  - intros sd G. unfold BaseSetting.slot_to_db_slot. simpl. unfold dict_mem.
    rewrite G. destruct sd as [|kv r]; [reflexivity|].
    cbn [truthy py_iter].
    rewrite <- (map_map fst PStr), for_each_strings. reflexivity.
Qed.

Lemma display_scopes_not_a_list_witness :
  BaseSetting.slot_to_db_slot
    (PDict [("displayScopes", PDict [("myfilter", PDict [("filter", PDict [])])])])
  = (PDict [("displayScopes", PDict [("myfilter", PDict [("filter", PDict [])])])],
     Some TypeError)
  /\
  BaseSetting.slot_to_db_slot (PDict [("displayScopes", PStr "filter")])
  = (PDict [("displayScopes", PStr "filter")], None).
Proof.
  split.
  - apply (proj2 (display_scopes_not_a_list
                    [("displayScopes",
                      PDict [("myfilter", PDict [("filter", PDict [])])])])
                 [("myfilter", PDict [("filter", PDict [])])]).
    reflexivity.
  - apply (proj1 (display_scopes_not_a_list [("displayScopes", PStr "filter")])
                 "filter").
    reflexivity.
Defined.

(** ** Exceptions of the pass over the slots *)

(** X9. The pass over [metadata['slots']] with which [to_json] begins
    raises nothing but [TypeError], and the [ValueError] (circular
    reference) or [RecursionError] (nesting too deep) that [json.dumps]
    raised on a filter: the membership tests keep every indexing from
    raising [KeyError]. *)
Theorem slots_pass_raises_only
    (recursion_limit : nat) (metadata : InPlace.hval)
    (h h' : InPlace.store) (e : exn) :
  InPlace.slots_to_db_slots recursion_limit metadata h = (h', Some e) ->
  e = TypeError \/ e = ValueError \/ e = RecursionError.
Proof. apply InPlaceFacts.slots_raises. Qed.

Lemma slots_pass_raises_only_witness :
  RecursionError = TypeError \/ RecursionError = ValueError \/
  RecursionError = RecursionError.
Proof.
  apply (slots_pass_raises_only 0 (InPlace.metadata shared_setting)
           shared_store shared_store RecursionError).
  reflexivity.
Defined.
